(** * Room registry and session gateway of the dodgeball relay server

    A shallow embedding of [server/RoomManager.js] and of the room-related
    handlers of [server/server.js], with the properties of the room
    registry, the team balancer and the gateway's host-only gate.

    Modelling conventions.
    - A JavaScript object used as a dictionary ([this.rooms],
      [room.players]) is an association list held in the order in which
      [Object.keys] / [Object.values] enumerate it: array-index keys first,
      in ascending numeric order, then the other keys in insertion order.
      Where a key sent by a client is read ([joinRoom]), the names
      inherited from [Object.prototype] are looked up too; the other
      methods are reached with the code of a stored room (the code
      [createRoom] generated, or [room.id] of a room [getPlayerRoom]
      returned), and player keys are socket ids, so there the lookups
      are of own properties.
    - Numbers are integers ([Z]), standing for the integer-valued number of
      that value; [undefined] / [null] / [NaN] is [None].
    - Mutation of a shared object (a room, a player) is an in-place update
      of its entry in the enclosing store.
    - A [TypeError] raised by reading a property of [undefined] is [None]. *)

From Stdlib Require Import String Ascii List ZArith Bool Lia Arith Permutation.
Import ListNotations.
Local Open Scope string_scope.
Local Open Scope list_scope.

(* ------------------------------------------------------------------ *)
(** ** JavaScript primitives used by the server *)

Module Js.

(** [a || b] on an optional string: [undefined] and [""] are falsy. *)
Definition or_string (a : option string) (b : string) : string :=
  match a with
  | Some s => if s =? "" then b else s
  | None => b
  end.

(** [a || b] on an optional number: [undefined], [NaN] and [0] are falsy. *)
Definition or_number (a : option Z) (b : Z) : Z :=
  match a with
  | Some n => if (n =? 0)%Z then b else n
  | None => b
  end.

(** The leading decimal digit of [a] and the power of ten below it. *)
Fixpoint lead_digit (fuel : nat) (a scale : Z) : Z * Z :=
  match fuel with
  | O => (a, scale)
  | S fuel' =>
      if (a <? 10)%Z then (a, scale)
      else lead_digit fuel' (a / 10)%Z (scale * 10)%Z
  end.

(** The first digit of [String(a)] for a number [a >= 10^21], which is
    printed in exponent form from the shortest numeral that reads back as
    [a]: the leading digit [d] of [a], or the next one when
    [(d + 1) * 10^j] is within half a unit in the last place above [a]
    (a tie reads back as [a] when the 53-bit significand of [a] is
    even). *)
Definition exponent_lead (a : Z) : Z :=
  let '(d, scale) := lead_digit (Z.to_nat (Z.log2 a)) a 1 in
  let e := (Z.log2 a - 52)%Z in
  let half := (2 ^ (e - 1))%Z in
  let next := ((d + 1) * scale)%Z in
  let reaches :=
    if Z.even (a / 2 ^ e) then (next - a <=? half)%Z
    else (next - a <? half)%Z in
  if reaches then (if (d =? 9)%Z then 1%Z else (d + 1)%Z) else d.

(** [parseInt(x)] is [parseInt(String(x))].  On an integer-valued number
    below [10^21] in absolute value the text is its decimal numeral and
    the result is that integer; from [10^21] on the text is in exponent
    form and only its sign and first digit are read.  On [undefined] it
    is [NaN]. *)
Definition parseInt (a : option Z) : option Z :=
  match a with
  | None => None
  | Some n =>
      if (Z.abs n <? 10 ^ 21)%Z then Some n
      else Some (Z.sgn n * exponent_lead (Z.abs n))%Z
  end.

(** The property names every object inherits from [Object.prototype];
    each reads as a function or, for [__proto__], as the prototype
    object. *)
Definition inherited (k : string) : bool :=
  existsb (String.eqb k)
    [ "constructor"; "__defineGetter__"; "__defineSetter__";
      "hasOwnProperty"; "__lookupGetter__"; "__lookupSetter__";
      "isPrototypeOf"; "propertyIsEnumerable"; "toString"; "valueOf";
      "__proto__"; "toLocaleString" ].

Definition upper (c : ascii) : ascii :=
  let n := nat_of_ascii c in
  if (97 <=? n)%nat && (n <=? 122)%nat then ascii_of_nat (n - 32) else c.

(** [s.toUpperCase()] on ASCII text. *)
Fixpoint toUpperCase (s : string) : string :=
  match s with
  | EmptyString => EmptyString
  | String c s' => String (upper c) (toUpperCase s')
  end.

(** [s.substring(from, to)] for [from <= to]; clipped to the string. *)
Definition substring (from to : nat) (s : string) : string :=
  String.substring from (to - from) s.

Definition digit (c : ascii) : option N :=
  let n := N_of_ascii c in
  if (48 <=? n)%N && (n <=? 57)%N then Some (n - 48)%N else None.

Fixpoint decimal (s : string) (acc : N) : option N :=
  match s with
  | EmptyString => Some acc
  | String c s' =>
      match digit c with
      | Some d => decimal s' (10 * acc + d)%N
      | None => None
      end
  end.

(** A property key is an array index when it is the canonical decimal
    form of an integer below [2^32 - 1]. *)
Definition array_index (k : string) : option N :=
  match k with
  | EmptyString => None
  | String c rest =>
      if (c =? "0")%char then
        (if rest =? "" then Some 0%N else None)
      else
        match decimal k 0 with
        | Some n => if (n <? 4294967295)%N then Some n else None
        | None => None
        end
  end.

End Js.

(* ------------------------------------------------------------------ *)
(** ** Objects used as dictionaries *)

Module JsObject.
Section Obj.
Context {V : Type}.

Definition t := list (string * V).

(** [o[k]] *)
Fixpoint get (o : t) (k : string) : option V :=
  match o with
  | [] => None
  | (k', v) :: o' => if k' =? k then Some v else get o' k
  end.

Definition has (o : t) (k : string) : bool :=
  match get o k with Some _ => true | None => false end.

(** [o[k]] for a key that can be any text: an own property, else a
    member inherited from [Object.prototype], else [undefined]. *)
Inductive Lookup :=
| Own (v : V)
| Inherited
| Undefined.

Definition lookup (o : t) (k : string) : Lookup :=
  match get o k with
  | Some v => Own v
  | None => if Js.inherited k then Inherited else Undefined
  end.

(** [Object.keys(o)] and [Object.values(o)] *)
Definition keys (o : t) : list string := List.map fst o.
Definition values (o : t) : list V := List.map snd o.

(** Overwriting an existing property keeps its place. *)
Fixpoint replace (o : t) (k : string) (v : V) : t :=
  match o with
  | [] => []
  | (k', v') :: o' =>
      if k' =? k then (k', v) :: o' else (k', v') :: replace o' k v
  end.

(** A new array-index key goes among the index keys, in numeric order. *)
Fixpoint place_index (n : N) (k : string) (v : V) (o : t) : t :=
  match o with
  | [] => [(k, v)]
  | (k', v') :: o' =>
      match Js.array_index k' with
      | Some m =>
          if (m <? n)%N then (k', v') :: place_index n k v o'
          else (k, v) :: o
      | None => (k, v) :: o
      end
  end.

(** [o[k] = v] *)
Definition set (o : t) (k : string) (v : V) : t :=
  if has o k then replace o k v
  else
    match Js.array_index k with
    | Some n => place_index n k v o
    | None => o ++ [(k, v)]
    end.

(** [delete o[k]] *)
Fixpoint delete (o : t) (k : string) : t :=
  match o with
  | [] => []
  | (k', v) :: o' =>
      if k' =? k then delete o' k else (k', v) :: delete o' k
  end.

(** In-place mutation of the object that [values(o).find(found)]
    returns. *)
Fixpoint modify_found (o : t) (found : V -> bool) (f : V -> V) : t :=
  match o with
  | [] => []
  | (k, v) :: o' =>
      if found v then (k, f v) :: o' else (k, v) :: modify_found o' found f
  end.

(** In-place mutation of the object stored under [k]. *)
Fixpoint modify (o : t) (k : string) (f : V -> V) : t :=
  match o with
  | [] => []
  | (k', v) :: o' =>
      if k' =? k then (k', f v) :: o' else (k', v) :: modify o' k f
  end.

End Obj.
Arguments t : clear implicits.
Arguments Lookup : clear implicits.
End JsObject.

(* ------------------------------------------------------------------ *)
(** ** Data model *)

Module Player.
Record t := mk {
  id : string;
  team : string;
  isBot : bool;
  isHost : bool;
  name : option string
}.

Definition with_team (p : t) (tm : string) : t :=
  mk (id p) tm (isBot p) (isHost p) (name p).

Definition with_isHost (p : t) (h : bool) : t :=
  mk (id p) (team p) (isBot p) h (name p).

(** [p.team === tm] *)
Definition on_team (tm : string) (p : t) : bool := team p =? tm.
End Player.

Module Settings.
Record t := mk {
  maxPlayers : Z;
  teamSize : Z;
  map : string
}.
End Settings.

(** The [settings] argument of [create_room] / [update_room_settings]:
    [{teamSize?, map?}]. *)
Module Payload.
Record t := mk {
  teamSize : option Z;
  map : option string
}.
Definition empty : t := mk None None.
End Payload.

Module Room.
Record t := mk {
  id : string;
  hostId : string;
  players : JsObject.t Player.t;
  gameState : string;
  settings : Settings.t;
  createdAt : Z
}.

Definition with_players (r : t) (ps : JsObject.t Player.t) : t :=
  mk (id r) (hostId r) ps (gameState r) (settings r) (createdAt r).

Definition with_settings (r : t) (s : Settings.t) : t :=
  mk (id r) (hostId r) (players r) (gameState r) s (createdAt r).

Definition with_hostId (r : t) (h : string) : t :=
  mk (id r) h (players r) (gameState r) (settings r) (createdAt r).

Definition with_gameState (r : t) (g : string) : t :=
  mk (id r) (hostId r) (players r) g (settings r) (createdAt r).

(** [Object.values(room.players).filter((p) => p.team === tm).length] *)
Definition teamCount (r : t) (tm : string) : nat :=
  length (filter (Player.on_team tm) (JsObject.values (players r))).

(** [Object.keys(room.players).length] *)
Definition playerCount (r : t) : nat :=
  length (JsObject.keys (players r)).
End Room.

(** [this.rooms] *)
Definition Rooms := JsObject.t Room.t.

(* ------------------------------------------------------------------ *)
(** ** [server/RoomManager.js] *)

Module RoomManager.

Inductive JoinResult :=
| JoinError (error : string)
| JoinSuccess (room : Room.t).

Inductive SwitchResult :=
| SwitchUndefined
| SwitchSuccess (player : Player.t)
| SwitchError (error : string).

Inductive LeaveResult :=
| LeaveUndefined
| LeaveNewHost (newHostId : string).

(** [Math.random().toString(36).substring(2, 6).toUpperCase()], where
    [rnd36] is the text [Math.random().toString(36)] of this call. *)
Definition generateRoomId (rnd36 : string) : string :=
  Js.toUpperCase (Js.substring 2 6 rnd36).

Definition addPlayerToRoom (rooms : Rooms) (roomId playerId : string)
    (isHost : bool) : option Rooms :=
  match JsObject.get rooms roomId with
  | None => None
  | Some room =>
      let blueCount := Room.teamCount room "BLUE" in
      let redCount := Room.teamCount room "RED" in
      let team := if (blueCount <=? redCount)%nat then "BLUE" else "RED" in
      let player := Player.mk playerId team false isHost None in
      Some (JsObject.replace rooms roomId
              (Room.with_players room
                 (JsObject.set (Room.players room) playerId player)))
  end.

(** [now] is the value of [Date.now()]. *)
Definition createRoom (rooms : Rooms) (hostId : string)
    (settings : Payload.t) (rnd36 : string) (now : Z)
    : option (Rooms * string) :=
  let roomId := generateRoomId rnd36 in
  let teamSize := Js.or_number (Payload.teamSize settings) 1 in
  let room :=
    Room.mk roomId hostId [] "LOBBY"
      (Settings.mk (teamSize * 2) teamSize
         (Js.or_string (Payload.map settings) "orbital"))
      now in
  match addPlayerToRoom (JsObject.set rooms roomId room) roomId hostId true with
  | Some rooms' => Some (rooms', roomId)
  | None => None
  end.

(** The player objects of one team, as the keys they are stored under. *)
Definition teamMembers (tm : string) (ps : JsObject.t Player.t)
    : list string :=
  List.map fst (filter (fun e => Player.on_team tm (snd e)) ps).

(** One [while] loop of [rebalanceTeams].  The array being popped is
    held last-element-first, so that [pop] takes its head.  The loop
    test fails on an empty array ([0 > teamSize] excludes
    [to.length < teamSize]), which is the first branch. *)
Fixpoint moveExcess (popped : list string) (pushed : list string)
    (teamSize : Z) (tm : string) (ps : JsObject.t Player.t)
    : list string * list string * JsObject.t Player.t :=
  match popped with
  | [] => ([], pushed, ps)
  | moved :: rest =>
      if ((Z.of_nat (List.length popped) >? teamSize)
          && (Z.of_nat (List.length pushed) <? teamSize))%Z
      then moveExcess rest (pushed ++ [moved]) teamSize tm
             (JsObject.modify ps moved (fun p => Player.with_team p tm))
      else (popped, pushed, ps)
  end.

Definition rebalanceTeams (room : Room.t) : Room.t :=
  let teamSize := Settings.teamSize (Room.settings room) in
  let players := Room.players room in
  let blue := teamMembers "BLUE" players in
  let red := teamMembers "RED" players in
  let '(blue1, red1, players1) :=
    moveExcess (rev blue) red teamSize "RED" players in
  let '(_, _, players2) :=
    moveExcess (rev red1) (rev blue1) teamSize "BLUE" players1 in
  Room.with_players room players2.

Definition updateSettings (rooms : Rooms) (roomId : string)
    (settings : Payload.t) : Rooms * option Room.t :=
  match JsObject.get rooms roomId with
  | None => (rooms, None)
  | Some room =>
      let old := Room.settings room in
      let newTeamSize :=
        Js.or_number (Js.parseInt (Payload.teamSize settings))
          (Settings.teamSize old) in
      let room1 :=
        Room.with_settings room
          (Settings.mk (newTeamSize * 2) newTeamSize
             (Js.or_string (Payload.map settings) (Settings.map old))) in
      let room2 := rebalanceTeams room1 in
      (JsObject.replace rooms roomId room2, Some room2)
  end.

(** [roomId] is the text the client sent.  For an inherited name [room] is
    a member of [Object.prototype]: it is truthy and its [gameState] is
    [undefined]. *)
Definition joinRoom (rooms : Rooms) (roomId playerId : string)
    : option (Rooms * JoinResult) :=
  match JsObject.lookup rooms roomId with
  | JsObject.Undefined => Some (rooms, JoinError "Room not found")
  | JsObject.Inherited => Some (rooms, JoinError "Game already started")
  | JsObject.Own room =>
      if negb (Room.gameState room =? "LOBBY") then
        Some (rooms, JoinError "Game already started")
      else if (Z.of_nat (Room.playerCount room)
               >=? Settings.maxPlayers (Room.settings room))%Z then
        Some (rooms, JoinError "Room full")
      else
        match addPlayerToRoom rooms roomId playerId false with
        | Some rooms' =>
            match JsObject.get rooms' roomId with
            | Some room' => Some (rooms', JoinSuccess room')
            | None => None
            end
        | None => None
        end
  end.

Definition switchTeam (rooms : Rooms) (roomId playerId : string)
    (targetTeam : option string) : Rooms * SwitchResult :=
  match JsObject.get rooms roomId with
  | None => (rooms, SwitchUndefined)
  | Some room =>
      match JsObject.get (Room.players room) playerId with
      | None => (rooms, SwitchUndefined)
      | Some player =>
          let newTeam :=
            Js.or_string targetTeam
              (if Player.team player =? "BLUE" then "RED" else "BLUE") in
          if Player.team player =? newTeam then
            (rooms, SwitchSuccess player)
          else if (Z.of_nat (Room.teamCount room newTeam)
                   >=? Settings.teamSize (Room.settings room))%Z then
            (rooms, SwitchError "Team full")
          else
            let player' := Player.with_team player newTeam in
            (JsObject.replace rooms roomId
               (Room.with_players room
                  (JsObject.replace (Room.players room) playerId player')),
             SwitchSuccess player')
      end
  end.

Definition leaveRoom (rooms : Rooms) (roomId playerId : string)
    : Rooms * LeaveResult :=
  match JsObject.get rooms roomId with
  | None => (rooms, LeaveUndefined)
  | Some room =>
      match JsObject.delete (Room.players room) playerId with
      | [] => (JsObject.delete rooms roomId, LeaveUndefined)
      | (nextPlayerId, next) :: others =>
          if Room.hostId room =? playerId then
            (JsObject.replace rooms roomId
               (Room.with_players (Room.with_hostId room nextPlayerId)
                  ((nextPlayerId, Player.with_isHost next true) :: others)),
             LeaveNewHost nextPlayerId)
          else
            (JsObject.replace rooms roomId
               (Room.with_players room ((nextPlayerId, next) :: others)),
             LeaveUndefined)
      end
  end.

Definition getRoom (rooms : Rooms) (roomId : string) : option Room.t :=
  JsObject.get rooms roomId.

(** The entities are copies of the players, under the same keys. *)
Definition getRoomEntities (rooms : Rooms) (roomId : string)
    : JsObject.t Player.t :=
  match JsObject.get rooms roomId with
  | None => []
  | Some room => Room.players room
  end.

Definition getPlayerRoom (rooms : Rooms) (playerId : string)
    : option Room.t :=
  find (fun r => JsObject.has (Room.players r) playerId)
    (JsObject.values rooms).

End RoomManager.


(* ------------------------------------------------------------------ *)
(** ** Room handlers of [server/server.js] *)

Module Server.

Inductive Message :=
| player_role (isHost : bool)
| current_players (players : JsObject.t Player.t)
| player_joined (player : option Player.t)
| room_settings_updated (settings : Settings.t)
| round_state (data : string)
| player_hit (data : string)
| game_started (entities : JsObject.t Player.t).

Inductive Reply :=
| ReplyRoomId (roomId : string)      (* [{success: true, roomId}] *)
| ReplyRoom (room : Room.t)          (* [{success: true, room}] *)
| ReplyError (error : string).       (* [{success: false, error}] *)

(** What a handler does to the transport, in program order. *)
Inductive Effect :=
| SocketJoin (socketId roomId : string)        (* [socket.join(roomId)] *)
| Emit (socketId : string) (m : Message)       (* [socket.emit] *)
| EmitOthers (socketId roomId : string) (m : Message)
                                               (* [socket.to(roomId).emit] *)
| EmitRoom (roomId : string) (m : Message)     (* [io.to(roomId).emit] *)
| Callback (socketId : string) (r : Reply).    (* [callback(...)] *)

Definition on_create_room (rooms : Rooms) (socketId : string)
    (settings : Payload.t) (rnd36 : string) (now : Z)
    : option (Rooms * list Effect) :=
  match RoomManager.createRoom rooms socketId settings rnd36 now with
  | None => None
  | Some (rooms', roomId) =>
      match RoomManager.getRoom rooms' roomId with
      | None => None
      | Some room =>
          Some (rooms',
                [ SocketJoin socketId roomId;
                  Emit socketId (player_role true);
                  Emit socketId (current_players (Room.players room));
                  Callback socketId (ReplyRoomId roomId) ])
      end
  end.

Definition on_join_room (rooms : Rooms) (socketId roomId : string)
    : option (Rooms * list Effect) :=
  match RoomManager.joinRoom rooms roomId socketId with
  | None => None
  | Some (rooms', RoomManager.JoinError error) =>
      Some (rooms', [ Callback socketId (ReplyError error) ])
  | Some (rooms', RoomManager.JoinSuccess room) =>
      let newPlayer := JsObject.get (Room.players room) socketId in
      Some (rooms',
            [ SocketJoin socketId roomId;
              EmitOthers socketId roomId (player_joined newPlayer);
              Emit socketId (current_players (Room.players room));
              Emit socketId (player_role false);
              Callback socketId (ReplyRoom room) ])
  end.

Definition on_update_room_settings (rooms : Rooms) (socketId : string)
    (settings : Payload.t) : Rooms * list Effect :=
  match RoomManager.getPlayerRoom rooms socketId with
  | None => (rooms, [])
  | Some room =>
      if negb (Room.hostId room =? socketId) then (rooms, [])
      else
        match RoomManager.updateSettings rooms (Room.id room) settings with
        | (rooms', Some updatedRoom) =>
            (rooms',
             [ EmitRoom (Room.id room)
                 (room_settings_updated (Room.settings updatedRoom)) ])
        | (rooms', None) => (rooms', [])
        end
  end.

Definition on_round_state (rooms : Rooms) (socketId : string)
    (data : string) : Rooms * list Effect :=
  match RoomManager.getPlayerRoom rooms socketId with
  | Some room =>
      if Room.hostId room =? socketId then
        (rooms, [ EmitOthers socketId (Room.id room) (round_state data) ])
      else (rooms, [])
  | None => (rooms, [])
  end.

Definition on_player_hit (rooms : Rooms) (socketId : string)
    (data : string) : Rooms * list Effect :=
  match RoomManager.getPlayerRoom rooms socketId with
  | Some room =>
      if Room.hostId room =? socketId then
        (rooms, [ EmitOthers socketId (Room.id room) (player_hit data) ])
      else (rooms, [])
  | None => (rooms, [])
  end.

(** [room.gameState = "PLAYING"] is an assignment to the room object that
    [getPlayerRoom] returned. *)
Definition on_start_game (rooms : Rooms) (socketId : string)
    : Rooms * list Effect :=
  match RoomManager.getPlayerRoom rooms socketId with
  | Some room =>
      if Room.hostId room =? socketId then
        let rooms' :=
          JsObject.modify_found rooms
            (fun r => JsObject.has (Room.players r) socketId)
            (fun r => Room.with_gameState r "PLAYING") in
        (rooms',
         [ EmitRoom (Room.id room)
             (game_started
                (RoomManager.getRoomEntities rooms' (Room.id room))) ])
      else (rooms, [])
  | None => (rooms, [])
  end.

(** The three host-only messages. *)
Inductive HostOnly :=
| update_room_settings (settings : Payload.t)
| round_state_msg (data : string)
| player_hit_msg (data : string).

Definition handle (rooms : Rooms) (socketId : string) (m : HostOnly)
    : Rooms * list Effect :=
  match m with
  | update_room_settings settings =>
      on_update_room_settings rooms socketId settings
  | round_state_msg data => on_round_state rooms socketId data
  | player_hit_msg data => on_player_hit rooms socketId data
  end.

End Server.

(* ------------------------------------------------------------------ *)
(** ** Sequences of registry operations *)

Inductive Op :=
| OpCreate (hostId : string) (settings : Payload.t) (rnd36 : string) (now : Z)
| OpJoin (roomId playerId : string)
| OpLeave (roomId playerId : string)
| OpSwitch (roomId playerId : string) (targetTeam : option string)
| OpUpdate (roomId : string) (settings : Payload.t).

(** The registry after one call.  ([createRoom] and [joinRoom] always
    return, see [createRoom_returns] and [joinRoom_returns].) *)
Definition step (rooms : Rooms) (op : Op) : Rooms :=
  match op with
  | OpCreate hostId settings rnd36 now =>
      match RoomManager.createRoom rooms hostId settings rnd36 now with
      | Some (rooms', _) => rooms'
      | None => rooms
      end
  | OpJoin roomId playerId =>
      match RoomManager.joinRoom rooms roomId playerId with
      | Some (rooms', _) => rooms'
      | None => rooms
      end
  | OpLeave roomId playerId => fst (RoomManager.leaveRoom rooms roomId playerId)
  | OpSwitch roomId playerId targetTeam =>
      fst (RoomManager.switchTeam rooms roomId playerId targetTeam)
  | OpUpdate roomId settings =>
      fst (RoomManager.updateSettings rooms roomId settings)
  end.

(** The registry starts empty ([this.rooms = {}]). *)
Definition run (ops : list Op) : Rooms := fold_left step ops [].

(** A room has exactly one member flagged as host, the one [hostId] names. *)
Definition hostFlagged (room : Room.t) : list string :=
  List.map fst (filter (fun e => Player.isHost (snd e)) (Room.players room)).

Definition one_host (room : Room.t) : Prop :=
  hostFlagged room = [Room.hostId room].

(** [playerId] is a key of the room's [players]. *)
Definition member (playerId : string) (room : Room.t) : Prop :=
  JsObject.get (Room.players room) playerId <> None.

(** Both teams are within [teamSize]. *)
Definition teams_within (room : Room.t) : Prop :=
  (Z.of_nat (Room.teamCount room "BLUE")
   <= Settings.teamSize (Room.settings room))%Z /\
  (Z.of_nat (Room.teamCount room "RED")
   <= Settings.teamSize (Room.settings room))%Z.

(* ------------------------------------------------------------------ *)
(** ** Notions used in the statements, and sample registries *)

(** The room [createRoom] stores: the host alone, on BLUE. *)
Definition createdRoom (hostId : string) (settings : Payload.t)
    (rnd36 : string) (now : Z) : Room.t :=
  let teamSize := Js.or_number (Payload.teamSize settings) 1 in
  Room.mk (RoomManager.generateRoomId rnd36) hostId
    [(hostId, Player.mk hostId "BLUE" false true None)] "LOBBY"
    (Settings.mk (teamSize * 2) teamSize
       (Js.or_string (Payload.map settings) "orbital"))
    now.

(** The room ["ABCD"] as [createRoom] leaves it with default settings:
    the host alone, on BLUE. *)
Definition soloRoom (hostId : string) (now : Z) : Room.t :=
  Room.mk "ABCD" hostId
    [(hostId, Player.mk hostId "BLUE" false true None)] "LOBBY"
    (Settings.mk 2 1 "orbital") now.

(** Sample registries: ["P1"] has created ["ABCD"]; ["P2"] has joined;
    the game has started. *)
Definition lobbyP1 : Rooms :=
  run [OpCreate "P1" Payload.empty "0.abcdef" 0].

(** The team [addPlayerToRoom] picks, from the counts before the add. *)
Definition pickedTeam (room : Room.t) : string :=
  if (Room.teamCount room "BLUE" <=? Room.teamCount room "RED")%nat
  then "BLUE" else "RED".

(** The room object after [addPlayerToRoom]. *)
Definition withNewPlayer (room : Room.t) (playerId : string) (isHost : bool)
    : Room.t :=
  Room.with_players room
    (JsObject.set (Room.players room) playerId
       (Player.mk playerId (pickedTeam room) false isHost None)).

Definition lobbyP1P2 : Rooms :=
  run [OpCreate "P1" Payload.empty "0.abcdef" 0; OpJoin "ABCD" "P2"].

Definition startedP1 : Rooms := fst (Server.on_start_game lobbyP1 "P1").



(** A second room, ["WXYZ"], with default settings. *)
Definition roomWXYZ (hostId : string) (now : Z) : Room.t :=
  Room.mk "WXYZ" hostId
    [(hostId, Player.mk hostId "BLUE" false true None)] "LOBBY"
    (Settings.mk 2 1 "orbital") now.

(** Members of team [tm] among the players [ps]. *)
Definition count_on (tm : string) (ps : JsObject.t Player.t) : nat :=
  List.length (filter (Player.on_team tm) (JsObject.values ps)).

Definition tally (b : bool) : nat := if b then 1 else 0.

(** Player [k] of [ps] is on team [tm]. *)
Definition onTeamIn (ps : JsObject.t Player.t) (tm k : string) : Prop :=
  exists p, JsObject.get ps k = Some p /\ Player.team p = tm.

(** The arrays [popped] and [pushed] list without repetition players of
    teams [ta] and [tb], and are as long as those teams are large. *)
Definition arrays_of (ta tb : string) (popped pushed : list string)
    (ps : JsObject.t Player.t) : Prop :=
  NoDup popped /\ NoDup pushed /\
  (forall k, In k popped -> onTeamIn ps ta k) /\
  (forall k, In k pushed -> onTeamIn ps tb k) /\
  count_on ta ps = List.length popped /\
  count_on tb ps = List.length pushed.

(** Team size 2, with P1 and P3 on BLUE and P2 on RED. *)
Definition crowdedLobby : Rooms :=
  run [OpCreate "P1" (Payload.mk (Some 2%Z) None) "0.abcdef" 0;
       OpJoin "ABCD" "P2"; OpJoin "ABCD" "P3"].

(** Two players, both on BLUE, in a room of [teamSize] [size]. *)
Definition lopsidedRoom (size : Z) : Room.t :=
  Room.mk "ABCD" "P1"
    [("P1", Player.mk "P1" "BLUE" false true None);
     ("P3", Player.mk "P3" "BLUE" false false None)] "LOBBY"
    (Settings.mk (size * 2) size "orbital") 0.

(** [q] is [p] up to the team. *)
Definition same_but_team (p q : Player.t) : Prop :=
  Player.id q = Player.id p /\
  Player.isBot q = Player.isBot p /\
  Player.isHost q = Player.isHost p /\
  Player.name q = Player.name p.

(** The same keys in the same order, each player the same up to the team. *)
Definition teams_only (ps ps' : JsObject.t Player.t) : Prop :=
  Forall2 (fun e e' => fst e' = fst e /\ same_but_team (snd e) (snd e')) ps ps'.

(** The room an operation is addressed to. *)
Definition target (op : Op) : option string :=
  match op with
  | OpCreate _ _ _ _ => None
  | OpJoin roomId _ | OpLeave roomId _ | OpSwitch roomId _ _
  | OpUpdate roomId _ => Some roomId
  end.

(** [room_step room op room']: the call [op] rewrites the room object
    [room] into [room']. *)
Inductive room_step (room : Room.t) : Op -> Room.t -> Prop :=
| step_join roomId playerId :
    Room.gameState room = "LOBBY" ->
    (Z.of_nat (Room.playerCount room)
     < Settings.maxPlayers (Room.settings room))%Z ->
    room_step room (OpJoin roomId playerId)
      (withNewPlayer room playerId false)
| step_leave_host roomId playerId next nextPlayer others :
    JsObject.delete (Room.players room) playerId
    = (next, nextPlayer) :: others ->
    Room.hostId room = playerId ->
    room_step room (OpLeave roomId playerId)
      (Room.with_players (Room.with_hostId room next)
         ((next, Player.with_isHost nextPlayer true) :: others))
| step_leave_other roomId playerId next nextPlayer others :
    JsObject.delete (Room.players room) playerId
    = (next, nextPlayer) :: others ->
    Room.hostId room <> playerId ->
    room_step room (OpLeave roomId playerId)
      (Room.with_players room ((next, nextPlayer) :: others))
| step_switch roomId playerId targetTeam player newTeam :
    JsObject.get (Room.players room) playerId = Some player ->
    room_step room (OpSwitch roomId playerId targetTeam)
      (Room.with_players room
         (JsObject.replace (Room.players room) playerId
            (Player.with_team player newTeam)))
| step_update roomId settings teamSize mapId :
    room_step room (OpUpdate roomId settings)
      (RoomManager.rebalanceTeams
         (Room.with_settings room
            (Settings.mk (teamSize * 2) teamSize mapId))).

(** How [step] changes the registry. *)
Inductive registry_step (rooms : Rooms) (op : Op) : Rooms -> Prop :=
| registry_same : registry_step rooms op rooms
| registry_room roomId room room' :
    target op = Some roomId ->
    JsObject.get rooms roomId = Some room ->
    room_step room op room' ->
    registry_step rooms op (JsObject.replace rooms roomId room')
| registry_remove roomId :
    registry_step rooms op (JsObject.delete rooms roomId)
| registry_create hostId settings rnd36 now emptyRoom :
    registry_step rooms op
      (JsObject.replace
         (JsObject.set rooms (RoomManager.generateRoomId rnd36) emptyRoom)
         (RoomManager.generateRoomId rnd36)
         (createdRoom hostId settings rnd36 now)).

Definition all_rooms (P : string -> Room.t -> Prop) (rooms : Rooms) : Prop :=
  forall roomId room, JsObject.get rooms roomId = Some room -> P roomId room.

(** A room as the registry keeps it: stored under its own [id], no key
    of [players] repeated, [maxPlayers] derived from [teamSize], and the
    host among the members. *)
Definition room_ok (roomId : string) (room : Room.t) : Prop :=
  Room.id room = roomId /\
  NoDup (JsObject.keys (Room.players room)) /\
  Settings.maxPlayers (Room.settings room)
  = (2 * Settings.teamSize (Room.settings room))%Z /\
  member (Room.hostId room) room.

(** No [joinRoom] of the sequence is by a player who is already a member
    of the room joined. *)
Fixpoint no_rejoin (rooms : Rooms) (ops : list Op) : Prop :=
  match ops with
  | [] => True
  | op :: rest =>
      (forall roomId playerId room,
         op = OpJoin roomId playerId ->
         JsObject.get rooms roomId = Some room ->
         ~ member playerId room) /\
      no_rejoin (step rooms op) rest
  end.

(** The registry after the host of ["ABCD"] has joined it again. *)
Definition rejoinedRoom : Room.t :=
  Room.mk "ABCD" "P1"
    [("P1", Player.mk "P1" "RED" false false None)] "LOBBY"
    (Settings.mk 2 1 "orbital") 0.

(* ------------------------------------------------------------------ *)
(** ** The other handlers of [server/server.js] *)

Module Gateway.

(** A JSON object payload, its values kept as text. *)
Definition Data := JsObject.t string.

(** [{...base, ...extra}]: the properties of [extra] are assigned onto a
    copy of [base], in order. *)
Definition spread (base extra : Data) : Data :=
  fold_left (fun acc kv => JsObject.set acc (fst kv) (snd kv)) extra base.

Inductive Message :=
| player_team_changed (player : Player.t)
| current_players (players : JsObject.t Player.t)
| player_updated (player : Player.t)
| player_moved (payload : Data)
| missile_update (data : Data)
| deflect_attempt (payload : Data)
| missile_deflected (data : Data)
| player_disconnected (id : string)
| player_role (isHost : bool)
| host_changed (hostId : string).

Inductive Reply :=
| ReplySuccess                       (* [{success: true}] *)
| ReplyError (error : string).       (* [{success: false, error}] *)

Inductive Effect :=
| EmitOthers (socketId roomId : string) (m : Message)
                                     (* [socket.to(roomId).emit] *)
| EmitTo (roomId : string) (m : Message)
                                     (* [io.to(roomId).emit] *)
| EmitSocket (socketId : string) (m : Message)
                                     (* [hostSocket.emit] *)
| Callback (socketId : string) (r : Reply).

(** The module-level [players] object and the room manager. *)
Record State := mkState {
  players : JsObject.t Data;
  rooms : Rooms
}.

(** [callback(reply)] when a callback function was sent along. *)
Definition reply (hasCallback : bool) (socketId : string) (r : Reply)
    : list Effect :=
  if hasCallback then [Callback socketId r] else [].

(** [io.on("connection", ...)]: [players[socket.id] = { id: socket.id }] *)
Definition on_connection (st : State) (socketId : string) : State :=
  mkState (JsObject.set (players st) socketId [("id", socketId)]) (rooms st).

(** The room object [getPlayerRoom] returned is the first that holds the
    player; [switchTeam] keeps the places and the keys, so its players
    after the call are read from that same place. *)
Definition on_switch_team (rms : Rooms) (socketId : string)
    (teamId : option string) (hasCallback : bool) : Rooms * list Effect :=
  match RoomManager.getPlayerRoom rms socketId with
  | None => (rms, reply hasCallback socketId (ReplyError "No room"))
  | Some room =>
      match RoomManager.switchTeam rms (Room.id room) socketId teamId with
      | (rms', RoomManager.SwitchSuccess player) =>
          (rms',
           [ EmitTo (Room.id room) (player_team_changed player);
             EmitTo (Room.id room)
               (current_players
                  (match RoomManager.getPlayerRoom rms' socketId with
                   | Some room' => Room.players room'
                   | None => Room.players room
                   end)) ]
           ++ reply hasCallback socketId ReplySuccess)
      | (rms', RoomManager.SwitchError error) =>
          (rms', reply hasCallback socketId (ReplyError error))
      | (rms', RoomManager.SwitchUndefined) =>
          (rms', reply hasCallback socketId (ReplyError "Failed"))
      end
  end.

Definition with_name (p : Player.t) (n : option string) : Player.t :=
  Player.mk (Player.id p) (Player.team p) (Player.isBot p) (Player.isHost p) n.

Definition on_update_player_data (st : State) (socketId : string)
    (data : Data) : State * list Effect :=
  let players' :=
    match JsObject.get (players st) socketId with
    | Some mine => JsObject.replace (players st) socketId (spread mine data)
    | None => players st
    end in
  match RoomManager.getPlayerRoom (rooms st) socketId with
  | Some room =>
      match JsObject.get (Room.players room) socketId with
      | Some player =>
          let named := with_name player (JsObject.get data "name") in
          (mkState players'
             (JsObject.modify_found (rooms st)
                (fun r => JsObject.has (Room.players r) socketId)
                (fun r =>
                   Room.with_players r
                     (JsObject.modify (Room.players r) socketId
                        (fun p => with_name p (JsObject.get data "name"))))),
           [ EmitOthers socketId (Room.id room) (player_updated named) ])
      | None => (mkState players' (rooms st), [])
      end
  | None => (mkState players' (rooms st), [])
  end.

Definition on_player_move (rms : Rooms) (socketId : string)
    (movementData : Data) : list Effect :=
  match RoomManager.getPlayerRoom rms socketId with
  | Some room =>
      [ EmitOthers socketId (Room.id room)
          (player_moved (spread [("id", socketId)] movementData)) ]
  | None => []
  end.

Definition on_missile_update (rms : Rooms) (socketId : string)
    (data : Data) : list Effect :=
  match RoomManager.getPlayerRoom rms socketId with
  | Some room => [ EmitOthers socketId (Room.id room) (missile_update data) ]
  | None => []
  end.

(** [connected] tells which socket ids [io.sockets.sockets] holds. *)
Definition on_deflect_attempt (rms : Rooms) (connected : string -> bool)
    (socketId : string) (data : Data) : list Effect :=
  match RoomManager.getPlayerRoom rms socketId with
  | Some room =>
      if connected (Room.hostId room) then
        [ EmitSocket (Room.hostId room)
            (deflect_attempt
               (JsObject.set (spread [] data) "playerId" socketId)) ]
      else []
  | None => []
  end.

Definition on_missile_deflected (rms : Rooms) (socketId : string)
    (data : Data) : list Effect :=
  match RoomManager.getPlayerRoom rms socketId with
  | Some room =>
      [ EmitOthers socketId (Room.id room) (missile_deflected data) ]
  | None => []
  end.

(** [result && result.newHostId] is falsy for the empty string too. *)
Definition on_disconnect (st : State) (socketId : string)
    : State * list Effect :=
  match RoomManager.getPlayerRoom (rooms st) socketId with
  | Some room =>
      let '(rms', result) :=
        RoomManager.leaveRoom (rooms st) (Room.id room) socketId in
      (mkState (JsObject.delete (players st) socketId) rms',
       EmitTo (Room.id room) (player_disconnected socketId)
       :: match result with
          | RoomManager.LeaveNewHost newHostId =>
              if newHostId =? "" then []
              else [ EmitTo newHostId (player_role true);
                     EmitTo (Room.id room) (host_changed newHostId) ]
          | RoomManager.LeaveUndefined => []
          end)
  | None => (mkState (JsObject.delete (players st) socketId) (rooms st), [])
  end.

End Gateway.

(** A registry as sequences of calls leave it. *)
Definition well_formed (rooms : Rooms) : Prop :=
  NoDup (JsObject.keys rooms) /\ all_rooms room_ok rooms.



(** The shape of a room code: at most four characters, none of them a
    lower-case letter. *)
Definition code_shape (roomId : string) : Prop :=
  (String.length roomId <= 4)%nat /\ Js.toUpperCase roomId = roomId.

(* ------------------------------------------------------------------ *)
(** ** Lookup, update and deletion in a dictionary *)

Section ObjectFacts.
Context {V : Type}.
Implicit Types (o : JsObject.t V) (k : string) (v : V).

Ltac keycase a b := destruct (String.eqb_spec a b); subst; try congruence.

Lemma has_get o k : JsObject.has o k = true <-> JsObject.get o k <> None.
Proof.
  unfold JsObject.has. destruct (JsObject.get o k); split; congruence.
Qed.

Lemma has_false_get o k : JsObject.has o k = false <-> JsObject.get o k = None.
Proof.
  unfold JsObject.has. destruct (JsObject.get o k); split; congruence.
Qed.

Lemma get_in_keys o k :
  JsObject.get o k <> None <-> In k (JsObject.keys o).
Proof.
  induction o as [|[k' v'] o IH]; simpl.
  - split; [congruence | tauto].
  - keycase k' k.
    + split; [auto | congruence].
    + rewrite IH. split; [auto | intros [H|H]; congruence].
Qed.

Lemma get_replace_same o k v :
  JsObject.get o k <> None -> JsObject.get (JsObject.replace o k v) k = Some v.
Proof.
  induction o as [|[k' v'] o IH]; simpl; [congruence|].
  keycase k' k; simpl.
  - now rewrite String.eqb_refl.
  - intros H. destruct (String.eqb_spec k' k); [congruence | auto].
Qed.

Lemma get_replace_other o k k' v :
  k' <> k -> JsObject.get (JsObject.replace o k v) k' = JsObject.get o k'.
Proof.
  intros Hne. induction o as [|[k0 v0] o IH]; simpl; [reflexivity|].
  keycase k0 k; simpl.
  - keycase k k'.
  - now rewrite IH.
Qed.

Lemma keys_replace o k v :
  JsObject.keys (JsObject.replace o k v) = JsObject.keys o.
Proof.
  induction o as [|[k0 v0] o IH]; simpl; [reflexivity|].
  keycase k0 k; simpl; [reflexivity | now f_equal].
Qed.

Lemma get_place_index_other o n k v k' :
  k' <> k ->
  JsObject.get (JsObject.place_index n k v o) k' = JsObject.get o k'.
Proof.
  intros Hne. induction o as [|[k0 v0] o IH]; simpl.
  - keycase k k'.
  - destruct (Js.array_index k0) as [m|]; [destruct (m <? n)%N|]; simpl;
      try rewrite IH; keycase k k'.
Qed.

Lemma get_place_index_same o n k v :
  JsObject.get o k = None ->
  JsObject.get (JsObject.place_index n k v o) k = Some v.
Proof.
  induction o as [|[k0 v0] o IH]; simpl.
  - now rewrite String.eqb_refl.
  - keycase k0 k. intros H.
    destruct (Js.array_index k0) as [m|]; [destruct (m <? n)%N|]; simpl;
      rewrite ?String.eqb_refl; auto.
    keycase k0 k. auto.
Qed.

Lemma get_app_other o k v k' :
  k' <> k -> JsObject.get (o ++ [(k, v)]) k' = JsObject.get o k'.
Proof.
  intros Hne. induction o as [|[k0 v0] o IH]; simpl.
  - keycase k k'.
  - now rewrite IH.
Qed.

Lemma get_app_same o k v :
  JsObject.get o k = None -> JsObject.get (o ++ [(k, v)]) k = Some v.
Proof.
  induction o as [|[k0 v0] o IH]; simpl.
  - now rewrite String.eqb_refl.
  - keycase k0 k. auto.
Qed.

Lemma get_set_same o k v : JsObject.get (JsObject.set o k v) k = Some v.
Proof.
  unfold JsObject.set. destruct (JsObject.has o k) eqn:E.
  - apply get_replace_same. now apply has_get.
  - apply has_false_get in E. destruct (Js.array_index k).
    + now apply get_place_index_same.
    + now apply get_app_same.
Qed.

Lemma get_set_other o k v k' :
  k' <> k -> JsObject.get (JsObject.set o k v) k' = JsObject.get o k'.
Proof.
  intros Hne. unfold JsObject.set. destruct (JsObject.has o k).
  - now apply get_replace_other.
  - destruct (Js.array_index k).
    + now apply get_place_index_other.
    + now apply get_app_other.
Qed.

Lemma set_nil k v : JsObject.set (@nil (string * V)) k v = [(k, v)].
Proof.
  unfold JsObject.set. simpl. now destruct (Js.array_index k).
Qed.

Lemma get_delete_same o k : JsObject.get (JsObject.delete o k) k = None.
Proof.
  induction o as [|[k0 v0] o IH]; simpl; [reflexivity|].
  keycase k0 k. simpl. keycase k0 k.
Qed.

Lemma get_delete_other o k k' :
  k' <> k -> JsObject.get (JsObject.delete o k) k' = JsObject.get o k'.
Proof.
  intros Hne. induction o as [|[k0 v0] o IH]; simpl; [reflexivity|].
  keycase k0 k; simpl.
  - keycase k k'.
  - now rewrite IH.
Qed.


End ObjectFacts.

Lemma lookup_own {V : Type} (o : JsObject.t V) (k : string) (v : V) :
  JsObject.get o k = Some v -> JsObject.lookup o k = JsObject.Own v.
Proof. unfold JsObject.lookup. now intros ->. Qed.

Lemma lookup_absent {V : Type} (o : JsObject.t V) (k : string) :
  JsObject.get o k = None ->
  JsObject.lookup o k
  = if Js.inherited k then JsObject.Inherited else JsObject.Undefined.
Proof. unfold JsObject.lookup. now intros ->. Qed.

(* ------------------------------------------------------------------ *)
(** ** Room codes *)

Lemma length_toUpperCase (s : string) :
  String.length (Js.toUpperCase s) = String.length s.
Proof. induction s; simpl; congruence. Qed.

Lemma length_substring_le (s : string) (n m : nat) :
  (String.length (String.substring n m s) <= m)%nat.
Proof.
  revert n m. induction s as [|c s IH]; intros [|n] [|m]; simpl;
    try lia; try apply IH.
  specialize (IH 0%nat m). lia.
Qed.

Lemma generateRoomId_length (rnd36 : string) :
  (String.length (RoomManager.generateRoomId rnd36) <= 4)%nat.
Proof.
  unfold RoomManager.generateRoomId, Js.substring.
  rewrite length_toUpperCase. apply (length_substring_le rnd36 2 (6 - 2)).
Qed.

(* ------------------------------------------------------------------ *)
(** ** [createRoom] *)

Lemma addPlayerToRoom_get (rooms : Rooms) (roomId playerId : string)
    (isHost : bool) (room : Room.t) :
  JsObject.get rooms roomId = Some room ->
  RoomManager.addPlayerToRoom rooms roomId playerId isHost
  = Some (JsObject.replace rooms roomId
            (Room.with_players room
               (JsObject.set (Room.players room) playerId
                  (Player.mk playerId
                     (if (Room.teamCount room "BLUE"
                          <=? Room.teamCount room "RED")%nat
                      then "BLUE" else "RED")
                     false isHost None)))).
Proof.
  intros H. unfold RoomManager.addPlayerToRoom. now rewrite H.
Qed.

Lemma createRoom_returns (rooms : Rooms) (hostId : string)
    (settings : Payload.t) (rnd36 : string) (now : Z) :
  exists rooms',
    RoomManager.createRoom rooms hostId settings rnd36 now
    = Some (rooms', RoomManager.generateRoomId rnd36) /\
    RoomManager.getRoom rooms' (RoomManager.generateRoomId rnd36)
    = Some (createdRoom hostId settings rnd36 now) /\
    (forall r, r <> RoomManager.generateRoomId rnd36 ->
               RoomManager.getRoom rooms' r = RoomManager.getRoom rooms r).
Proof.
  unfold RoomManager.createRoom.
  set (rid := RoomManager.generateRoomId rnd36).
  set (room0 := Room.mk rid hostId [] _ _ now).
  rewrite (addPlayerToRoom_get _ rid hostId true room0)
    by apply get_set_same.
  eexists. split; [reflexivity|]. unfold RoomManager.getRoom. split.
  - rewrite get_replace_same by (rewrite get_set_same; discriminate).
    unfold Room.with_players, room0; simpl. now rewrite set_nil.
  - intros r Hr. rewrite get_replace_other, get_set_other by assumption.
    reflexivity.
Qed.

Lemma createdRoom_maxPlayers (hostId : string) (settings : Payload.t)
    (rnd36 : string) (now : Z) :
  Settings.maxPlayers (Room.settings (createdRoom hostId settings rnd36 now))
  = (2 * Settings.teamSize
           (Room.settings (createdRoom hostId settings rnd36 now)))%Z.
Proof. simpl. apply Z.mul_comm. Qed.

(** C1, as stated, fails: when the generator yields the code of an active
    room, [createRoom] stores the new room under it and the room that was
    there is gone; and a code can have fewer than four characters. *)
Lemma createRoom_reuses_active_code :
  RoomManager.getRoom lobbyP1 "ABCD" = Some (soloRoom "P1" 0) /\
  RoomManager.createRoom lobbyP1 "P2" Payload.empty "0.abcdef" 5
  = Some ([("ABCD", soloRoom "P2" 5)], "ABCD") /\
  RoomManager.generateRoomId "0.i" = "I".
Proof. repeat split; reflexivity. Qed.

(** C1 (amended): [createRoom] gives the new room the code the generator
    produced, the third to sixth characters of the base-36 text of the
    random number in upper case, so at most four characters, and checks
    nothing: the new room, holding the host alone, is stored under that
    code whatever was stored there, and the rooms under every other code
    are left as they were. *)
Theorem createRoom_stores_under_generated_code
    (rooms : Rooms) (hostId : string) (settings : Payload.t)
    (rnd36 : string) (now : Z) :
  exists rooms' room,
    RoomManager.createRoom rooms hostId settings rnd36 now
    = Some (rooms', RoomManager.generateRoomId rnd36) /\
    RoomManager.generateRoomId rnd36
    = Js.toUpperCase (Js.substring 2 6 rnd36) /\
    (String.length (RoomManager.generateRoomId rnd36) <= 4)%nat /\
    RoomManager.getRoom rooms' (RoomManager.generateRoomId rnd36) = Some room /\
    Room.id room = RoomManager.generateRoomId rnd36 /\
    Room.hostId room = hostId /\
    JsObject.keys (Room.players room) = [hostId] /\
    (forall r, r <> RoomManager.generateRoomId rnd36 ->
               RoomManager.getRoom rooms' r = RoomManager.getRoom rooms r).
Proof.
  destruct (createRoom_returns rooms hostId settings rnd36 now)
    as (rooms' & Hc & Hg & Hf).
  exists rooms', (createdRoom hostId settings rnd36 now).
  repeat split; auto using generateRoomId_length.
Qed.

(** C6, as stated, fails: with [teamSize] [-1] or [0] a room is created
    and the sender is told so. *)
Lemma createRoom_accepts_teamSize_below_one :
  RoomManager.createRoom [] "P1" (Payload.mk (Some (-1)%Z) None) "0.abcdef" 0
  = Some ([("ABCD",
            Room.mk "ABCD" "P1"
              [("P1", Player.mk "P1" "BLUE" false true None)] "LOBBY"
              (Settings.mk (-2) (-1) "orbital") 0)], "ABCD") /\
  RoomManager.createRoom [] "P1" (Payload.mk (Some 0%Z) None) "0.abcdef" 0
  = Some ([("ABCD", soloRoom "P1" 0)], "ABCD") /\
  option_map snd
    (Server.on_create_room [] "P1" (Payload.mk (Some (-1)%Z) None)
       "0.abcdef" 0)
  = Some [ Server.SocketJoin "P1" "ABCD";
           Server.Emit "P1" (Server.player_role true);
           Server.Emit "P1"
             (Server.current_players
                [("P1", Player.mk "P1" "BLUE" false true None)]);
           Server.Callback "P1" (Server.ReplyRoomId "ABCD") ].
Proof. repeat split; reflexivity. Qed.

(** C6 (amended): [createRoom] validates nothing and never fails.  For
    every requester and payload it creates a room and returns its code,
    and the [create_room] handler replies with that code; a [teamSize] of
    [0] is replaced by [1], any other supplied value, negative ones
    included, is stored as given, with [maxPlayers] twice that. *)
Theorem createRoom_never_rejects
    (rooms : Rooms) (hostId : string) (settings : Payload.t)
    (rnd36 : string) (now : Z) :
  exists rooms' room effects,
    RoomManager.createRoom rooms hostId settings rnd36 now
    = Some (rooms', RoomManager.generateRoomId rnd36) /\
    RoomManager.getRoom rooms' (RoomManager.generateRoomId rnd36) = Some room /\
    Settings.teamSize (Room.settings room)
    = match Payload.teamSize settings with
      | Some n => if (n =? 0)%Z then 1%Z else n
      | None => 1%Z
      end /\
    Settings.maxPlayers (Room.settings room)
    = (2 * Settings.teamSize (Room.settings room))%Z /\
    Server.on_create_room rooms hostId settings rnd36 now
    = Some (rooms', effects) /\
    In (Server.Callback hostId
          (Server.ReplyRoomId (RoomManager.generateRoomId rnd36))) effects /\
    (forall e, In e effects ->
               forall error, e <> Server.Callback hostId (Server.ReplyError error)).
Proof.
  destruct (createRoom_returns rooms hostId settings rnd36 now)
    as (rooms' & Hc & Hg & Hf).
  exists rooms', (createdRoom hostId settings rnd36 now).
  unfold Server.on_create_room. rewrite Hc, Hg. eexists.
  repeat split; try reflexivity.
  - apply createdRoom_maxPlayers.
  - simpl. auto.
  - simpl. intros e [<-|[<-|[<-|[<-|[]]]]] error; discriminate.
Qed.

(** C9, as stated, fails: a supplied [map] that is the empty string is
    replaced by the default, not kept. *)
Lemma createRoom_empty_map_defaults :
  option_map (fun r => RoomManager.getRoom (fst r) (snd r))
    (RoomManager.createRoom [] "P1" (Payload.mk (Some 2%Z) (Some ""))
       "0.abcdef" 0)
  = Some (Some (Room.mk "ABCD" "P1"
                  [("P1", Player.mk "P1" "BLUE" false true None)] "LOBBY"
                  (Settings.mk 4 2 "orbital") 0)).
Proof. reflexivity. Qed.

(** C9 (amended): for every payload whose [teamSize] is at least [1] or
    missing, [getRoom] on the code [createRoom] returned gives settings
    with [teamSize] the supplied value, or [1] when missing; [map] the
    supplied value when it is a non-empty string, or ["orbital"] when it
    is missing or empty; and [maxPlayers] twice [teamSize]. *)
Theorem createRoom_getRoom_settings
    (rooms : Rooms) (hostId : string) (settings : Payload.t)
    (rnd36 : string) (now : Z)
    (Hsize : Payload.teamSize settings = None \/
             exists n, Payload.teamSize settings = Some n /\ (1 <= n)%Z) :
  exists rooms' roomId room,
    RoomManager.createRoom rooms hostId settings rnd36 now
    = Some (rooms', roomId) /\
    RoomManager.getRoom rooms' roomId = Some room /\
    Settings.teamSize (Room.settings room)
    = match Payload.teamSize settings with Some n => n | None => 1%Z end /\
    Settings.map (Room.settings room)
    = match Payload.map settings with
      | Some m => if m =? "" then "orbital" else m
      | None => "orbital"
      end /\
    Settings.maxPlayers (Room.settings room)
    = (2 * Settings.teamSize (Room.settings room))%Z.
Proof.
  destruct (createRoom_returns rooms hostId settings rnd36 now)
    as (rooms' & Hc & Hg & Hf).
  exists rooms', (RoomManager.generateRoomId rnd36),
    (createdRoom hostId settings rnd36 now).
  repeat split; auto using createdRoom_maxPlayers.
  simpl. destruct Hsize as [->|(n & -> & Hn)]; simpl; [reflexivity|].
  destruct (Z.eqb_spec n 0); [lia | reflexivity].
Qed.

Lemma createRoom_getRoom_settings_witness :
  exists rooms' roomId room,
    RoomManager.createRoom lobbyP1 "P2" (Payload.mk (Some 3%Z) (Some "arena"))
      "0.wxyz12" 9
    = Some (rooms', roomId) /\
    RoomManager.getRoom rooms' roomId = Some room /\
    Settings.teamSize (Room.settings room) = 3%Z /\
    Settings.map (Room.settings room) = "arena" /\
    Settings.maxPlayers (Room.settings room)
    = (2 * Settings.teamSize (Room.settings room))%Z.
Proof.
  apply (createRoom_getRoom_settings lobbyP1 "P2"
           (Payload.mk (Some 3%Z) (Some "arena")) "0.wxyz12" 9).
  right. exists 3%Z. split; [reflexivity | lia].
Defined.

(* ------------------------------------------------------------------ *)
(** ** [joinRoom] and the team of a new player *)

Lemma joinRoom_success (rooms : Rooms) (roomId playerId : string)
    (room : Room.t) :
  RoomManager.getRoom rooms roomId = Some room ->
  Room.gameState room = "LOBBY" ->
  (Z.of_nat (Room.playerCount room)
   < Settings.maxPlayers (Room.settings room))%Z ->
  RoomManager.joinRoom rooms roomId playerId
  = Some (JsObject.replace rooms roomId (withNewPlayer room playerId false),
          RoomManager.JoinSuccess (withNewPlayer room playerId false)).
Proof.
  unfold RoomManager.getRoom. intros Hget Hstate Hcount.
  unfold RoomManager.joinRoom. rewrite (lookup_own _ _ _ Hget), Hstate. simpl.
  destruct (Z.geb_spec (Z.of_nat (Room.playerCount room))
              (Settings.maxPlayers (Room.settings room))); [lia|].
  rewrite (addPlayerToRoom_get _ _ _ _ room Hget).
  rewrite get_replace_same by congruence. reflexivity.
Qed.

(** [joinRoom] always returns. *)
Lemma joinRoom_returns (rooms : Rooms) (roomId playerId : string) :
  exists rooms' result,
    RoomManager.joinRoom rooms roomId playerId = Some (rooms', result).
Proof.
  unfold RoomManager.joinRoom, JsObject.lookup.
  destruct (JsObject.get rooms roomId) as [room|] eqn:Hget;
    [|destruct (Js.inherited roomId); eauto].
  destruct (negb (Room.gameState room =? "LOBBY")); [eauto|].
  destruct (Z.of_nat (Room.playerCount room)
            >=? Settings.maxPlayers (Room.settings room))%Z; [eauto|].
  rewrite (addPlayerToRoom_get _ _ _ _ room Hget).
  rewrite get_replace_same by congruence. eauto.
Qed.



(** The outcomes of [joinRoom] and of the [join_room] handler, in the
    order the code tests them.  A code that is no key of [rooms] is
    answered ["Room not found"], unless it is a name every object
    inherits, which is answered ["Game already started"]; a room that is
    not in ["LOBBY"] is answered ["Game already started"]; a room that
    holds [maxPlayers] members or more is answered ["Room full"]; in these
    cases the registry is unchanged and the handler replies with the error
    and nothing else.  Otherwise the call succeeds: the room differs only
    in that [players] maps the player to a new non-host entry on the team
    the balancing rule picks, and the handler subscribes the socket,
    announces the new player to the others, sends the player list and the
    role to the socket and replies with the room. *)
Lemma joinRoom_outcomes (rooms : Rooms) (roomId playerId : string) :
  (JsObject.get rooms roomId = None ->
   let error :=
     if Js.inherited roomId then "Game already started"
     else "Room not found" in
   RoomManager.joinRoom rooms roomId playerId
   = Some (rooms, RoomManager.JoinError error) /\
   Server.on_join_room rooms playerId roomId
   = Some (rooms, [Server.Callback playerId (Server.ReplyError error)])) /\
  (forall room,
     JsObject.get rooms roomId = Some room ->
     Room.gameState room <> "LOBBY" ->
     RoomManager.joinRoom rooms roomId playerId
     = Some (rooms, RoomManager.JoinError "Game already started") /\
     Server.on_join_room rooms playerId roomId
     = Some (rooms, [Server.Callback playerId
                       (Server.ReplyError "Game already started")])) /\
  (forall room,
     JsObject.get rooms roomId = Some room ->
     Room.gameState room = "LOBBY" ->
     (Settings.maxPlayers (Room.settings room)
      <= Z.of_nat (Room.playerCount room))%Z ->
     RoomManager.joinRoom rooms roomId playerId
     = Some (rooms, RoomManager.JoinError "Room full") /\
     Server.on_join_room rooms playerId roomId
     = Some (rooms, [Server.Callback playerId
                       (Server.ReplyError "Room full")])) /\
  (forall room,
     JsObject.get rooms roomId = Some room ->
     Room.gameState room = "LOBBY" ->
     (Z.of_nat (Room.playerCount room)
      < Settings.maxPlayers (Room.settings room))%Z ->
     let newPlayer := Player.mk playerId (pickedTeam room) false false None in
     exists rooms' room',
       RoomManager.joinRoom rooms roomId playerId
       = Some (rooms', RoomManager.JoinSuccess room') /\
       JsObject.get rooms' roomId = Some room' /\
       (forall r, r <> roomId ->
                  JsObject.get rooms' r = JsObject.get rooms r) /\
       JsObject.get (Room.players room') playerId = Some newPlayer /\
       (forall p, p <> playerId ->
                  JsObject.get (Room.players room') p
                  = JsObject.get (Room.players room) p) /\
       Room.with_players room' (Room.players room) = room /\
       Server.on_join_room rooms playerId roomId
       = Some (rooms',
               [ Server.SocketJoin playerId roomId;
                 Server.EmitOthers playerId roomId
                   (Server.player_joined (Some newPlayer));
                 Server.Emit playerId
                   (Server.current_players (Room.players room'));
                 Server.Emit playerId (Server.player_role false);
                 Server.Callback playerId (Server.ReplyRoom room') ])).
Proof.
  split; [|split; [|split]]; unfold Server.on_join_room.
  - intros Hget. unfold RoomManager.joinRoom.
    rewrite (lookup_absent _ _ Hget).
    destruct (Js.inherited roomId); auto.
  - intros room Hget Hstate. unfold RoomManager.joinRoom.
    rewrite (lookup_own _ _ _ Hget).
    destruct (String.eqb_spec (Room.gameState room) "LOBBY"); [congruence|].
    auto.
  - intros room Hget Hstate Hfull. unfold RoomManager.joinRoom.
    rewrite (lookup_own _ _ _ Hget), Hstate. simpl.
    destruct (Z.geb_spec (Z.of_nat (Room.playerCount room))
                (Settings.maxPlayers (Room.settings room))); [|lia].
    auto.
  - intros room Hget Hstate Hcount.
    exists (JsObject.replace rooms roomId (withNewPlayer room playerId false)),
      (withNewPlayer room playerId false).
    assert (Hplayer :
              JsObject.get (Room.players (withNewPlayer room playerId false))
                playerId
              = Some (Player.mk playerId (pickedTeam room) false false None))
      by (simpl; apply get_set_same).
    rewrite (joinRoom_success rooms roomId playerId room Hget Hstate Hcount).
    rewrite Hplayer.
    split; [reflexivity|].
    split; [apply get_replace_same; congruence|].
    split; [intros r Hr; now apply get_replace_other|].
    split; [reflexivity|].
    split; [intros p Hp; simpl; now apply get_set_other|].
    split; [now destruct room | reflexivity].
Qed.

Lemma joinRoom_outcomes_sample :
  RoomManager.joinRoom lobbyP1 "WXYZ" "P2"
  = Some (lobbyP1, RoomManager.JoinError "Room not found") /\
  RoomManager.joinRoom startedP1 "ABCD" "P2"
  = Some (startedP1, RoomManager.JoinError "Game already started") /\
  RoomManager.joinRoom lobbyP1P2 "ABCD" "P3"
  = Some (lobbyP1P2, RoomManager.JoinError "Room full") /\
  exists rooms' room',
    RoomManager.joinRoom lobbyP1 "ABCD" "P2"
    = Some (rooms', RoomManager.JoinSuccess room') /\
    JsObject.get (Room.players room') "P2"
    = Some (Player.mk "P2" "RED" false false None) /\
    Server.on_join_room lobbyP1 "P2" "ABCD"
    = Some (rooms',
            [ Server.SocketJoin "P2" "ABCD";
              Server.EmitOthers "P2" "ABCD"
                (Server.player_joined
                   (Some (Player.mk "P2" "RED" false false None)));
              Server.Emit "P2" (Server.current_players (Room.players room'));
              Server.Emit "P2" (Server.player_role false);
              Server.Callback "P2" (Server.ReplyRoom room') ]).
Proof.
  split; [|split; [|split]].
  - apply (joinRoom_outcomes lobbyP1 "WXYZ" "P2"). reflexivity.
  - destruct (joinRoom_outcomes startedP1 "ABCD" "P2") as (_ & H & _).
    apply (H (Room.with_gameState (soloRoom "P1" 0) "PLAYING"));
      [reflexivity | discriminate].
  - destruct (joinRoom_outcomes lobbyP1P2 "ABCD" "P3") as (_ & _ & H & _).
    destruct (JsObject.get lobbyP1P2 "ABCD") as [room|] eqn:E;
      [|discriminate].
    apply (H room); [reflexivity | | ];
      injection E as <-; [reflexivity | simpl; lia].
  - destruct (joinRoom_outcomes lobbyP1 "ABCD" "P2") as (_ & _ & _ & H).
    destruct (H (soloRoom "P1" 0))
      as (rooms' & room' & Hj & _ & _ & Hp & _ & _ & Hh);
      [reflexivity | reflexivity | simpl; lia |].
    exists rooms', room'. split; [exact Hj | split; [exact Hp | exact Hh]].
Qed.

(** C3: a code that names no active room is not always answered
    ["Room not found"].  In the registry that holds the single room
    ["ABCD"], [joinRoom] with the code ["constructor"], a name every
    object inherits, answers ["Game already started"], and the
    [join_room] handler replies with that error; the registry is
    unchanged.  The same holds for ["__proto__"] and ["toString"]. *)
Theorem joinRoom_inherited_code_not_reported_missing :
  JsObject.keys lobbyP1 = ["ABCD"] /\
  RoomManager.joinRoom lobbyP1 "constructor" "P2"
  = Some (lobbyP1, RoomManager.JoinError "Game already started") /\
  Server.on_join_room lobbyP1 "P2" "constructor"
  = Some (lobbyP1, [Server.Callback "P2"
                      (Server.ReplyError "Game already started")]) /\
  RoomManager.joinRoom lobbyP1 "__proto__" "P2"
  = Some (lobbyP1, RoomManager.JoinError "Game already started") /\
  RoomManager.joinRoom lobbyP1 "toString" "P2"
  = Some (lobbyP1, RoomManager.JoinError "Game already started") /\
  RoomManager.joinRoom [] "constructor" "P2"
  = Some ([], RoomManager.JoinError "Game already started").
Proof. repeat split. Qed.



(** The members counted are those before the add, the player's own
    previous entry included: ["P3"], on BLUE in a room with two on BLUE
    and one on RED, joins again and is put on RED. *)
Lemma rejoin_counts_previous_entry :
  JsObject.get crowdedLobby "ABCD"
  = Some (Room.mk "ABCD" "P1"
            [("P1", Player.mk "P1" "BLUE" false true None);
             ("P2", Player.mk "P2" "RED" false false None);
             ("P3", Player.mk "P3" "BLUE" false false None)] "LOBBY"
            (Settings.mk 4 2 "orbital") 0) /\
  exists rooms' room',
    RoomManager.joinRoom crowdedLobby "ABCD" "P3"
    = Some (rooms', RoomManager.JoinSuccess room') /\
    Room.players room'
    = [("P1", Player.mk "P1" "BLUE" false true None);
       ("P2", Player.mk "P2" "RED" false false None);
       ("P3", Player.mk "P3" "RED" false false None)].
Proof. split; [reflexivity|]. eexists _, _. split; reflexivity. Qed.

(* ------------------------------------------------------------------ *)
(** ** The host-only gate of the gateway *)

(** C7: an [update_room_settings], [round_state] or [player_hit] message
    from a sender who is not the host of the room [getPlayerRoom] finds
    for them is dropped: the registry is unchanged and the handler emits
    nothing, neither a broadcast nor a reply to the sender. *)
Theorem non_host_message_dropped
    (rooms : Rooms) (socketId : string) (m : Server.HostOnly) (room : Room.t)
    (Hroom : RoomManager.getPlayerRoom rooms socketId = Some room)
    (Hnot : Room.hostId room <> socketId) :
  Server.handle rooms socketId m = (rooms, []).
Proof.
  destruct m as [settings|data|data]; simpl;
    unfold Server.on_update_room_settings, Server.on_round_state,
      Server.on_player_hit;
    rewrite Hroom;
    destruct (String.eqb_spec (Room.hostId room) socketId);
    simpl; congruence.
Qed.

Lemma non_host_message_dropped_witness :
  Server.handle lobbyP1P2 "P2"
    (Server.update_room_settings (Payload.mk (Some 3%Z) (Some "arena")))
  = (lobbyP1P2, []) /\
  Server.handle lobbyP1P2 "P2" (Server.round_state_msg "over")
  = (lobbyP1P2, []) /\
  Server.handle lobbyP1P2 "P2" (Server.player_hit_msg "P1")
  = (lobbyP1P2, []).
Proof.
  split; [|split];
    refine (non_host_message_dropped lobbyP1P2 "P2" _
              (Room.with_players (soloRoom "P1" 0)
                 [("P1", Player.mk "P1" "BLUE" false true None);
                  ("P2", Player.mk "P2" "RED" false false None)])
              _ _);
    [reflexivity | discriminate | reflexivity | discriminate
     | reflexivity | discriminate].
Defined.

(* ------------------------------------------------------------------ *)
(** ** Membership across rooms *)

Lemma joinRoom_success_inv (rooms rooms' : Rooms) (roomId playerId : string)
    (room' : Room.t) :
  RoomManager.joinRoom rooms roomId playerId
  = Some (rooms', RoomManager.JoinSuccess room') ->
  exists room,
    RoomManager.getRoom rooms roomId = Some room /\
    Room.gameState room = "LOBBY" /\
    (Z.of_nat (Room.playerCount room)
     < Settings.maxPlayers (Room.settings room))%Z /\
    rooms' = JsObject.replace rooms roomId (withNewPlayer room playerId false) /\
    room' = withNewPlayer room playerId false.
Proof.
  unfold RoomManager.joinRoom, JsObject.lookup, RoomManager.getRoom.
  destruct (JsObject.get rooms roomId) as [room|] eqn:Hget;
    [|destruct (Js.inherited roomId); discriminate].
  destruct (String.eqb_spec (Room.gameState room) "LOBBY"); simpl;
    [|discriminate].
  destruct (Z.geb_spec (Z.of_nat (Room.playerCount room))
              (Settings.maxPlayers (Room.settings room))); [discriminate|].
  rewrite (addPlayerToRoom_get _ _ _ _ room Hget).
  rewrite get_replace_same by congruence.
  intros Heq. injection Heq as <- <-. exists room. repeat split; auto.
Qed.

(** C5, as stated, fails: ["P1"] creates a second room and is a member of
    both; ["P2"] creates a room, joins another and is a member of both. *)
Lemma player_in_two_rooms :
  run [OpCreate "P1" Payload.empty "0.abcdef" 0;
       OpCreate "P1" Payload.empty "0.wxyz12" 1]
  = [("ABCD", soloRoom "P1" 0); ("WXYZ", roomWXYZ "P1" 1)] /\
  run [OpCreate "P1" Payload.empty "0.abcdef" 0;
       OpCreate "P2" Payload.empty "0.wxyz12" 1;
       OpJoin "ABCD" "P2"]
  = [("ABCD",
      Room.with_players (soloRoom "P1" 0)
        [("P1", Player.mk "P1" "BLUE" false true None);
         ("P2", Player.mk "P2" "RED" false false None)]);
     ("WXYZ", roomWXYZ "P2" 1)].
Proof. split; reflexivity. Qed.

(** [getPlayerRoom] returns the first room, in the order [Object.values]
    lists them, that holds the player. *)
Lemma getPlayerRoom_first (rooms : Rooms) (playerId : string) (room : Room.t) :
  RoomManager.getPlayerRoom rooms playerId = Some room <->
  exists before roomId after,
    rooms = before ++ (roomId, room) :: after /\
    member playerId room /\
    forall k r, In (k, r) before -> ~ member playerId r.
Proof.
  unfold RoomManager.getPlayerRoom, JsObject.values. split.
  - induction rooms as [|[k v] rest IH]; simpl; [discriminate|].
    destruct (JsObject.has (Room.players v) playerId) eqn:Hhas.
    + intros Hfind. injection Hfind as ->.
      exists [], k, rest. split; [reflexivity|].
      split; [now apply has_get | intros ? ? []].
    + intros Hfind.
      destruct (IH Hfind) as (before & roomId & after & -> & Hmem & Hnone).
      exists ((k, v) :: before), roomId, after.
      split; [reflexivity|]. split; [exact Hmem|].
      intros k' r [Heq | Hin]; [|now apply (Hnone k' r)].
      injection Heq as <- <-. intros Hv. apply has_get in Hv. congruence.
  - intros (before & roomId & after & -> & Hmem & Hnone).
    induction before as [|[k v] before IH]; simpl.
    + apply has_get in Hmem. now rewrite Hmem.
    + destruct (JsObject.has (Room.players v) playerId) eqn:Hhas.
      * exfalso. apply (Hnone k v); [now left | now apply has_get].
      * apply IH. intros k' r Hin. apply (Hnone k' r). now right.
Qed.

(** C5 (amended): a player can be a member of several active rooms.
    [createRoom] and [joinRoom] add the player to the target room and
    leave every other room exactly as it was, so a member of one room who
    creates a room under another code, or successfully joins another
    room, is afterwards a member of both; and [getPlayerRoom] returns
    the first room, in iteration order, that holds the player. *)
Theorem membership_kept_in_other_rooms :
  (forall rooms playerId settings rnd36 now,
     exists rooms' room2,
       RoomManager.createRoom rooms playerId settings rnd36 now
       = Some (rooms', RoomManager.generateRoomId rnd36) /\
       RoomManager.getRoom rooms' (RoomManager.generateRoomId rnd36)
       = Some room2 /\
       member playerId room2 /\
       (forall r, r <> RoomManager.generateRoomId rnd36 ->
                  RoomManager.getRoom rooms' r = RoomManager.getRoom rooms r) /\
       (forall roomId1 room1,
          RoomManager.getRoom rooms roomId1 = Some room1 ->
          member playerId room1 ->
          roomId1 <> RoomManager.generateRoomId rnd36 ->
          RoomManager.getRoom rooms' roomId1 = Some room1)) /\
  (forall rooms playerId roomId2 rooms' room2,
     RoomManager.joinRoom rooms roomId2 playerId
     = Some (rooms', RoomManager.JoinSuccess room2) ->
     RoomManager.getRoom rooms' roomId2 = Some room2 /\
     member playerId room2 /\
     (forall r, r <> roomId2 ->
                RoomManager.getRoom rooms' r = RoomManager.getRoom rooms r) /\
     (forall roomId1 room1,
        RoomManager.getRoom rooms roomId1 = Some room1 ->
        member playerId room1 ->
        roomId1 <> roomId2 ->
        RoomManager.getRoom rooms' roomId1 = Some room1)) /\
  (forall rooms playerId room,
     RoomManager.getPlayerRoom rooms playerId = Some room <->
     exists before roomId after,
       rooms = before ++ (roomId, room) :: after /\
       member playerId room /\
       forall k r, In (k, r) before -> ~ member playerId r).
Proof.
  split; [|split].
  - intros rooms playerId settings rnd36 now.
    destruct (createRoom_returns rooms playerId settings rnd36 now)
      as (rooms' & Hc & Hg & Hf).
    exists rooms', (createdRoom playerId settings rnd36 now).
    split; [exact Hc|]. split; [exact Hg|].
    split; [unfold member; simpl; rewrite String.eqb_refl; discriminate|].
    split; [intros r Hr; now apply Hf|].
    intros roomId1 room1 Hget _ Hne. now rewrite Hf.
  - intros rooms playerId roomId2 rooms' room2 Hj.
    apply joinRoom_success_inv in Hj.
    destruct Hj as (room & Hget2 & _ & _ & -> & ->).
    unfold RoomManager.getRoom in *.
    split; [apply get_replace_same; congruence|].
    split; [unfold member; simpl; rewrite get_set_same; discriminate|].
    split; [intros r Hr; now apply get_replace_other|].
    intros roomId1 room1 Hget _ Hne. now rewrite get_replace_other.
  - apply getPlayerRoom_first.
Qed.

Lemma membership_kept_in_other_rooms_witness :
  let rooms := [("ABCD", soloRoom "P1" 0); ("WXYZ", roomWXYZ "P2" 1)] in
  let joined := withNewPlayer (soloRoom "P1" 0) "P2" false in
  let rooms' := [("ABCD", joined); ("WXYZ", roomWXYZ "P2" 1)] in
  rooms = run [OpCreate "P1" Payload.empty "0.abcdef" 0;
               OpCreate "P2" Payload.empty "0.wxyz12" 1] /\
  RoomManager.joinRoom rooms "ABCD" "P2"
  = Some (rooms', RoomManager.JoinSuccess joined) /\
  (RoomManager.getRoom rooms' "ABCD" = Some joined /\ member "P2" joined) /\
  (RoomManager.getRoom rooms' "WXYZ" = Some (roomWXYZ "P2" 1) /\
   member "P2" (roomWXYZ "P2" 1)) /\
  RoomManager.getPlayerRoom rooms' "P2" = Some joined.
Proof.
  intros rooms joined rooms'.
  destruct membership_kept_in_other_rooms as (_ & Hjoin & Hfirst).
  assert (Hj : RoomManager.joinRoom rooms "ABCD" "P2"
               = Some (rooms', RoomManager.JoinSuccess joined))
    by reflexivity.
  assert (Hmem : member "P2" (roomWXYZ "P2" 1))
    by (unfold member; simpl; discriminate).
  destruct (Hjoin rooms "P2" "ABCD" rooms' joined Hj)
    as (Hget & Hjoined & _ & Hother).
  split; [reflexivity|]. split; [exact Hj|].
  split; [split; [exact Hget | exact Hjoined]|].
  split.
  - split; [|exact Hmem].
    apply (Hother "WXYZ" (roomWXYZ "P2" 1));
      [reflexivity | exact Hmem | discriminate].
  - apply (Hfirst rooms' "P2" joined).
    exists [], "ABCD", [("WXYZ", roomWXYZ "P2" 1)].
    split; [reflexivity|]. split; [exact Hjoined | intros ? ? []].
Defined.

(* ------------------------------------------------------------------ *)
(** ** Counting team members *)

Lemma teamCount_count_on (room : Room.t) (tm : string) :
  Room.teamCount room tm = count_on tm (Room.players room).
Proof. reflexivity. Qed.


Lemma count_on_cons (tm k : string) (p : Player.t) (ps : JsObject.t Player.t) :
  count_on tm ((k, p) :: ps) = (tally (Player.on_team tm p) + count_on tm ps)%nat.
Proof.
  unfold count_on. simpl. now destruct (Player.on_team tm p).
Qed.



Lemma count_on_modify (tm k : string) (f : Player.t -> Player.t)
    (p : Player.t) (ps : JsObject.t Player.t) :
  JsObject.get ps k = Some p ->
  (count_on tm (JsObject.modify ps k f) + tally (Player.on_team tm p)
   = count_on tm ps + tally (Player.on_team tm (f p)))%nat.
Proof.
  induction ps as [|[k0 p0] ps IH]; simpl; [discriminate|].
  destruct (String.eqb_spec k0 k) as [->|Hne].
  - intros [= ->]. rewrite !count_on_cons. lia.
  - intros H. rewrite !count_on_cons. specialize (IH H). lia.
Qed.






(* ------------------------------------------------------------------ *)
(** ** The loops of [rebalanceTeams] *)

Section ModifyFacts.
Context {V : Type}.
Implicit Types (o : JsObject.t V) (k : string) (f : V -> V).

Lemma get_modify_same o k f v :
  JsObject.get o k = Some v ->
  JsObject.get (JsObject.modify o k f) k = Some (f v).
Proof.
  induction o as [|[k0 v0] o IH]; simpl; [discriminate|].
  destruct (String.eqb_spec k0 k) as [->|Hne]; simpl.
  - rewrite String.eqb_refl. congruence.
  - destruct (String.eqb_spec k0 k); [congruence | exact IH].
Qed.

Lemma get_modify_other o k k' f :
  k' <> k -> JsObject.get (JsObject.modify o k f) k' = JsObject.get o k'.
Proof.
  intros Hne. induction o as [|[k0 v0] o IH]; simpl; [reflexivity|].
  destruct (String.eqb_spec k0 k) as [->|Hne0]; simpl.
  - destruct (String.eqb_spec k k'); congruence.
  - now rewrite IH.
Qed.

Lemma keys_modify o k f :
  JsObject.keys (JsObject.modify o k f) = JsObject.keys o.
Proof.
  induction o as [|[k0 v0] o IH]; simpl; [reflexivity|].
  destruct (k0 =? k); simpl; [reflexivity | now f_equal].
Qed.

Lemma get_of_entry o k v :
  NoDup (JsObject.keys o) -> In (k, v) o -> JsObject.get o k = Some v.
Proof.
  induction o as [|[k0 v0] o IH]; simpl; [tauto|].
  intros Hnd [Heq|Hin].
  - injection Heq as -> ->. now rewrite String.eqb_refl.
  - inversion Hnd as [|? ? Hnotin Hnd']; subst.
    destruct (String.eqb_spec k0 k) as [->|Hne]; [|auto].
    exfalso. apply Hnotin. change k with (fst (k, v)). now apply in_map.
Qed.

Lemma NoDup_keys_filter o (g : string * V -> bool) :
  NoDup (JsObject.keys o) -> NoDup (List.map fst (filter g o)).
Proof.
  induction o as [|[k0 v0] o IH]; simpl; [constructor|].
  intros Hnd. inversion Hnd as [|? ? Hnotin Hnd']; subst.
  destruct (g (k0, v0)); simpl; [|auto].
  constructor; [|auto]. intros Hin. apply Hnotin.
  apply in_map_iff in Hin. destruct Hin as ([k v] & <- & Hf).
  apply filter_In in Hf. change (fst (k, v)) with (fst (k, v)).
  apply in_map. tauto.
Qed.

End ModifyFacts.

Lemma NoDup_snoc {A : Type} (l : list A) (x : A) :
  NoDup l -> ~ In x l -> NoDup (l ++ [x]).
Proof.
  induction l as [|y l IH]; simpl; intros Hnd Hnotin.
  - constructor; [tauto | constructor].
  - inversion Hnd as [|? ? Hy Hl]; subst. constructor.
    + rewrite in_app_iff. simpl. intros [H|[H|[]]]; [tauto|]. subst. tauto.
    + apply IH; tauto.
Qed.

Lemma moveExcess_cons (moved : string) (rest pushed : list string)
    (teamSize : Z) (tm : string) (ps : JsObject.t Player.t) :
  RoomManager.moveExcess (moved :: rest) pushed teamSize tm ps
  = if ((Z.of_nat (List.length (moved :: rest)) >? teamSize)
        && (Z.of_nat (List.length pushed) <? teamSize))%Z
    then RoomManager.moveExcess rest (pushed ++ [moved]) teamSize tm
           (JsObject.modify ps moved (fun p => Player.with_team p tm))
    else (moved :: rest, pushed, ps).
Proof. reflexivity. Qed.

Section MoveExcess.
Variables ta tb : string.
Hypothesis Hdiff : ta <> tb.

Lemma arrays_of_step (moved : string) (rest pushed : list string)
    (ps : JsObject.t Player.t) :
  arrays_of ta tb (moved :: rest) pushed ps ->
  arrays_of ta tb rest (pushed ++ [moved])
    (JsObject.modify ps moved (fun p => Player.with_team p tb)).
Proof.
  intros (Hpop & Hpush & Ha & Hb & Hca & Hcb).
  inversion Hpop as [|? ? Hnotin Hrest]; subst.
  destruct (Ha moved (or_introl eq_refl)) as (p & Hget & Hteam).
  assert (Hfresh : ~ In moved pushed).
  { intros Hin. destruct (Hb moved Hin) as (q & Hq & Hqt). congruence. }
  pose proof (count_on_modify ta moved (fun p => Player.with_team p tb) p ps
                Hget) as Hma.
  pose proof (count_on_modify tb moved (fun p => Player.with_team p tb) p ps
                Hget) as Hmb.
  unfold Player.on_team in Hma, Hmb. simpl in Hma, Hmb.
  rewrite Hteam, String.eqb_refl in Hma, Hmb.
  destruct (String.eqb_spec tb ta) as [|_]; [congruence|].
  destruct (String.eqb_spec ta tb) as [|_]; [congruence|].
  simpl in Hma, Hmb. simpl in Hca.
  repeat split.
  - exact Hrest.
  - now apply NoDup_snoc.
  - intros k Hin. destruct (Ha k (or_intror Hin)) as (q & Hq & Hqt).
    exists q. split; [|exact Hqt]. rewrite get_modify_other; [exact Hq|].
    intros ->. tauto.
  - intros k Hin. apply in_app_iff in Hin. destruct Hin as [Hin|[<-|[]]].
    + destruct (Hb k Hin) as (q & Hq & Hqt).
      exists q. split; [|exact Hqt]. rewrite get_modify_other; [exact Hq|].
      intros ->. tauto.
    + exists (Player.with_team p tb). split; [|reflexivity].
      exact (get_modify_same ps moved (fun q => Player.with_team q tb) p
               Hget).
  - lia.
  - rewrite length_app. simpl. lia.
Qed.

Lemma moveExcess_spec (popped : list string) :
  forall (pushed : list string) (teamSize : Z) (ps : JsObject.t Player.t)
         (popped' pushed' : list string) (ps' : JsObject.t Player.t),
    arrays_of ta tb popped pushed ps ->
    RoomManager.moveExcess popped pushed teamSize tb ps
    = (popped', pushed', ps') ->
    arrays_of ta tb popped' pushed' ps' /\
    (List.length popped' + List.length pushed'
     = List.length popped + List.length pushed)%nat /\
    (Z.of_nat (List.length pushed')
     <= Z.max (Z.of_nat (List.length pushed)) teamSize)%Z /\
    ((Z.of_nat (List.length popped') <= teamSize)%Z \/
     (teamSize <= Z.of_nat (List.length pushed'))%Z).
Proof.
  induction popped as [|moved rest IH];
    intros pushed teamSize ps popped' pushed' ps' Harr Hrun.
  - simpl in Hrun. injection Hrun as <- <- <-.
    split; [exact Harr|]. simpl. lia.
  - rewrite moveExcess_cons in Hrun.
    destruct (Z.gtb_spec (Z.of_nat (List.length (moved :: rest))) teamSize)
      as [Hgt|Hle];
      [destruct (Z.ltb_spec (Z.of_nat (List.length pushed)) teamSize)
         as [Hlt|Hge]|]; simpl andb in Hrun; cbv iota in Hrun.
    + apply arrays_of_step in Harr.
      destruct (IH _ _ _ _ _ _ Harr Hrun) as (Harr' & Hsum & Hmax & Hexit).
      split; [exact Harr'|]. rewrite length_app in Hsum, Hmax.
      simpl List.length in *. lia.
    + injection Hrun as <- <- <-. split; [exact Harr|]. lia.
    + injection Hrun as <- <- <-. split; [exact Harr|]. lia.
Qed.

End MoveExcess.

Lemma teamMembers_length (tm : string) (ps : JsObject.t Player.t) :
  List.length (RoomManager.teamMembers tm ps) = count_on tm ps.
Proof.
  unfold RoomManager.teamMembers.
  induction ps as [|[k p] ps IH]; [reflexivity|].
  rewrite count_on_cons. simpl.
  destruct (Player.on_team tm p); simpl; now rewrite IH.
Qed.

Lemma teamMembers_onTeamIn (tm k : string) (ps : JsObject.t Player.t) :
  NoDup (JsObject.keys ps) ->
  In k (RoomManager.teamMembers tm ps) -> onTeamIn ps tm k.
Proof.
  intros Hnd Hin. unfold RoomManager.teamMembers in Hin.
  apply in_map_iff in Hin. destruct Hin as ([k' p] & Hk & Hf).
  simpl in Hk. subst k'. apply filter_In in Hf. destruct Hf as (Hin & Hon).
  exists p. split; [now apply get_of_entry|].
  unfold Player.on_team in Hon. simpl in Hon. now apply String.eqb_eq.
Qed.

Lemma arrays_of_start (ta tb : string) (ps : JsObject.t Player.t) :
  NoDup (JsObject.keys ps) ->
  arrays_of ta tb (rev (RoomManager.teamMembers ta ps))
    (RoomManager.teamMembers tb ps) ps.
Proof.
  intros Hnd. repeat split.
  - apply NoDup_rev. now apply NoDup_keys_filter.
  - now apply NoDup_keys_filter.
  - intros k Hin. apply in_rev in Hin. now apply teamMembers_onTeamIn.
  - intros k Hin. now apply teamMembers_onTeamIn.
  - now rewrite length_rev, teamMembers_length.
  - now rewrite teamMembers_length.
Qed.

(** The second loop pops what the first pushed, and pushes onto what the
    first popped. *)
Lemma arrays_of_swap (ta tb : string) (popped pushed : list string)
    (ps : JsObject.t Player.t) :
  arrays_of ta tb popped pushed ps ->
  arrays_of tb ta (rev pushed) (rev popped) ps.
Proof.
  intros (Hpop & Hpush & Ha & Hb & Hca & Hcb). repeat split.
  - now apply NoDup_rev.
  - now apply NoDup_rev.
  - intros k Hin. apply Hb. now apply in_rev.
  - intros k Hin. apply Ha. now apply in_rev.
  - now rewrite length_rev.
  - now rewrite length_rev.
Qed.



(* ------------------------------------------------------------------ *)
(** ** Team capacity *)

Lemma tally_on_team_le (tm tm' : string) (p : Player.t) :
  (tally (Player.on_team tm (Player.with_team p tm')) <= 1)%nat.
Proof. destruct (Player.on_team _ _); simpl; lia. Qed.



Lemma rebalanceTeams_fields (room : Room.t) :
  Room.with_players (RoomManager.rebalanceTeams room) (Room.players room)
  = room.
Proof.
  unfold RoomManager.rebalanceTeams.
  destruct (RoomManager.moveExcess _ _ _ "RED" _) as [[blue1 red1] ps1].
  destruct (RoomManager.moveExcess _ _ _ "BLUE" _) as [[red2 blue2] ps2].
  now destruct room.
Qed.

Lemma rebalanceTeams_settings (room : Room.t) :
  Room.settings (RoomManager.rebalanceTeams room) = Room.settings room.
Proof.
  now rewrite <- (rebalanceTeams_fields room) at 2.
Qed.

Lemma updateSettings_get (rooms : Rooms) (roomId : string)
    (settings : Payload.t) (room : Room.t) :
  RoomManager.getRoom rooms roomId = Some room ->
  let newTeamSize :=
    Js.or_number (Js.parseInt (Payload.teamSize settings))
      (Settings.teamSize (Room.settings room)) in
  let room' :=
    RoomManager.rebalanceTeams
      (Room.with_settings room
         (Settings.mk (newTeamSize * 2) newTeamSize
            (Js.or_string (Payload.map settings)
               (Settings.map (Room.settings room))))) in
  RoomManager.updateSettings rooms roomId settings
  = (JsObject.replace rooms roomId room', Some room') /\
  RoomManager.getRoom (JsObject.replace rooms roomId room') roomId = Some room'.
Proof.
  unfold RoomManager.getRoom. intros Hget. simpl.
  unfold RoomManager.updateSettings. rewrite Hget.
  split; [reflexivity | apply get_replace_same; congruence].
Qed.



Lemma lopsidedRoom_keys (size : Z) :
  NoDup (JsObject.keys (Room.players (lopsidedRoom size))).
Proof.
  simpl. constructor; [simpl; intros [H|[]]; discriminate|].
  constructor; [simpl; tauto | constructor].
Defined.


(** What the calls of the witness do to the teams. *)
Example rebalanceTeams_moves_last_blue :
  RoomManager.teamMembers "BLUE"
    (Room.players (RoomManager.rebalanceTeams (lopsidedRoom 1))) = ["P1"] /\
  RoomManager.teamMembers "RED"
    (Room.players (RoomManager.rebalanceTeams (lopsidedRoom 1))) = ["P3"].
Proof. split; reflexivity. Qed.

(* ------------------------------------------------------------------ *)
(** ** What [updateSettings] leaves alone *)

Lemma same_but_team_refl (p : Player.t) : same_but_team p p.
Proof. repeat split. Qed.

Lemma teams_only_refl (ps : JsObject.t Player.t) : teams_only ps ps.
Proof.
  induction ps; constructor; auto using same_but_team_refl.
Qed.

Lemma teams_only_trans (ps qs rs : JsObject.t Player.t) :
  teams_only ps qs -> teams_only qs rs -> teams_only ps rs.
Proof.
  intros H. revert rs. induction H as [|e e' ps qs (Hk & Hp) _ IH];
    intros rs Hrs; inversion Hrs as [|? e'' ? rs' (Hk' & Hp') Hrest]; subst;
    constructor; [|now apply IH].
  split; [congruence|].
  destruct Hp as (? & ? & ? & ?), Hp' as (? & ? & ? & ?).
  repeat split; congruence.
Qed.

Lemma teams_only_modify (ps : JsObject.t Player.t) (k tm : string) :
  teams_only ps (JsObject.modify ps k (fun p => Player.with_team p tm)).
Proof.
  induction ps as [|[k0 p0] ps IH]; simpl; [constructor|].
  destruct (k0 =? k).
  - constructor; [|apply teams_only_refl]. repeat split.
  - constructor; [|exact IH]. repeat split.
Qed.

Lemma moveExcess_teams_only (popped : list string) :
  forall (pushed : list string) (teamSize : Z) (tm : string)
         (ps : JsObject.t Player.t),
    teams_only ps (snd (RoomManager.moveExcess popped pushed teamSize tm ps)).
Proof.
  induction popped as [|moved rest IH]; intros;
    [apply teams_only_refl|].
  rewrite moveExcess_cons.
  destruct ((Z.of_nat (List.length (moved :: rest)) >? teamSize)
            && (Z.of_nat (List.length pushed) <? teamSize))%Z;
    [|apply teams_only_refl].
  eapply teams_only_trans; [apply teams_only_modify | apply IH].
Qed.

Lemma rebalanceTeams_teams_only (room : Room.t) :
  teams_only (Room.players room)
    (Room.players (RoomManager.rebalanceTeams room)).
Proof.
  unfold RoomManager.rebalanceTeams.
  pose proof (moveExcess_teams_only
                (rev (RoomManager.teamMembers "BLUE" (Room.players room)))
                (RoomManager.teamMembers "RED" (Room.players room))
                (Settings.teamSize (Room.settings room)) "RED"
                (Room.players room)) as H1.
  destruct (RoomManager.moveExcess _ _ _ "RED" _) as [[blue1 red1] ps1].
  pose proof (moveExcess_teams_only (rev red1) (rev blue1)
                (Settings.teamSize (Room.settings room)) "BLUE" ps1) as H2.
  destruct (RoomManager.moveExcess _ _ _ "BLUE" _) as [[red2 blue2] ps2].
  simpl in *. eapply teams_only_trans; eassumption.
Qed.

Lemma teams_only_keys (ps ps' : JsObject.t Player.t) :
  teams_only ps ps' -> JsObject.keys ps' = JsObject.keys ps.
Proof.
  induction 1 as [|e e' ps ps' (Hk & _) _ IH]; simpl; congruence.
Qed.

Lemma teams_only_get (ps ps' : JsObject.t Player.t) (k : string) (p : Player.t) :
  teams_only ps ps' ->
  JsObject.get ps k = Some p ->
  exists p', JsObject.get ps' k = Some p' /\ same_but_team p p'.
Proof.
  induction 1 as [|[k0 p0] [k0' p0'] ps ps' (Hk & Hp) _ IH]; simpl;
    [discriminate|].
  simpl in Hk, Hp. subst k0'.
  destruct (k0 =? k); [|exact IH].
  intros [= ->]. eauto.
Qed.

(** C10: on an existing room [updateSettings] changes the room's
    [settings] and, by rebalancing, the [team] of some players, and
    nothing else: the registry keeps its codes and every other room; the
    room keeps its [id], [hostId], [gameState] and [createdAt]; [players]
    keeps its keys, in order, so no player is removed whatever the new
    [teamSize]; and every player keeps [id], [isBot], [isHost] and
    [name]. *)
Theorem updateSettings_frame
    (rooms : Rooms) (roomId : string) (settings : Payload.t) (room : Room.t)
    (Hget : RoomManager.getRoom rooms roomId = Some room) :
  exists rooms' room',
    RoomManager.updateSettings rooms roomId settings = (rooms', Some room') /\
    RoomManager.getRoom rooms' roomId = Some room' /\
    JsObject.keys rooms' = JsObject.keys rooms /\
    (forall r, r <> roomId ->
               RoomManager.getRoom rooms' r = RoomManager.getRoom rooms r) /\
    Room.id room' = Room.id room /\
    Room.hostId room' = Room.hostId room /\
    Room.gameState room' = Room.gameState room /\
    Room.createdAt room' = Room.createdAt room /\
    JsObject.keys (Room.players room') = JsObject.keys (Room.players room) /\
    (forall k p,
       JsObject.get (Room.players room) k = Some p ->
       exists p',
         JsObject.get (Room.players room') k = Some p' /\
         same_but_team p p').
Proof.
  destruct (updateSettings_get rooms roomId settings room Hget)
    as (Hupd & Hget').
  eexists _, _. split; [exact Hupd|]. split; [exact Hget'|].
  set (room1 := Room.with_settings room _).
  pose proof (rebalanceTeams_fields room1) as Hfields.
  pose proof (rebalanceTeams_teams_only room1) as Hteams.
  change (Room.players room1) with (Room.players room) in Hteams.
  split; [apply keys_replace|].
  split; [intros r Hr; now apply get_replace_other|].
  assert (Hid : Room.id (RoomManager.rebalanceTeams room1) = Room.id room)
    by (change (Room.id room) with (Room.id room1);
        now rewrite <- Hfields at 2).
  assert (Hhost : Room.hostId (RoomManager.rebalanceTeams room1)
                  = Room.hostId room)
    by (change (Room.hostId room) with (Room.hostId room1);
        now rewrite <- Hfields at 2).
  assert (Hstate : Room.gameState (RoomManager.rebalanceTeams room1)
                   = Room.gameState room)
    by (change (Room.gameState room) with (Room.gameState room1);
        now rewrite <- Hfields at 2).
  assert (Hat : Room.createdAt (RoomManager.rebalanceTeams room1)
                = Room.createdAt room)
    by (change (Room.createdAt room) with (Room.createdAt room1);
        now rewrite <- Hfields at 2).
  repeat split; auto.
  - now apply teams_only_keys.
  - intros k p Hp. eapply teams_only_get; eassumption.
Qed.

Lemma updateSettings_frame_witness :
  exists rooms' room',
    RoomManager.updateSettings crowdedLobby "ABCD" (Payload.mk (Some 1%Z) None)
    = (rooms', Some room') /\
    RoomManager.getRoom rooms' "ABCD" = Some room' /\
    JsObject.keys rooms' = ["ABCD"] /\
    Room.hostId room' = "P1" /\
    JsObject.keys (Room.players room') = ["P1"; "P2"; "P3"].
Proof.
  destruct (RoomManager.getRoom crowdedLobby "ABCD") as [room|] eqn:Hget;
    [|discriminate].
  destruct (updateSettings_frame crowdedLobby "ABCD"
              (Payload.mk (Some 1%Z) None) room Hget)
    as (rooms' & room' & Hupd & Hget' & Hkeys & _ & _ & Hhost & _ & _ & Hps & _).
  exists rooms', room'. injection Hget as <-.
  repeat (split; [assumption|]). exact Hps.
Defined.

(* ------------------------------------------------------------------ *)
(** ** Keys and filtered entries under update *)

Section KeyFacts.
Context {V : Type}.
Implicit Types (o : JsObject.t V) (k : string) (v : V)
  (g : string * V -> bool).

Lemma place_index_perm o n k v :
  Permutation ((k, v) :: o) (JsObject.place_index n k v o).
Proof.
  induction o as [|[k0 v0] o IH]; simpl; [reflexivity|].
  destruct (Js.array_index k0) as [m|]; [destruct (m <? n)%N|];
    try reflexivity.
  etransitivity; [apply perm_swap | apply perm_skip, IH].
Qed.

Lemma set_new_perm o k v :
  JsObject.get o k = None -> Permutation ((k, v) :: o) (JsObject.set o k v).
Proof.
  intros Hnone. unfold JsObject.set.
  rewrite (proj2 (has_false_get o k) Hnone).
  destruct (Js.array_index k).
  - apply place_index_perm.
  - apply Permutation_cons_append.
Qed.

Lemma NoDup_keys_set o k v :
  NoDup (JsObject.keys o) -> NoDup (JsObject.keys (JsObject.set o k v)).
Proof.
  intros Hnd. destruct (JsObject.get o k) as [v0|] eqn:Hget.
  - unfold JsObject.set.
    rewrite (proj2 (has_get o k)) by congruence. now rewrite keys_replace.
  - eapply Permutation_NoDup.
    + apply Permutation_map, set_new_perm, Hget.
    + simpl. constructor; [|exact Hnd].
      intros Hin. apply get_in_keys in Hin. congruence.
Qed.

Lemma keys_delete_incl o k k' :
  In k' (JsObject.keys (JsObject.delete o k)) -> In k' (JsObject.keys o).
Proof.
  induction o as [|[k0 v0] o IH]; simpl; [tauto|].
  destruct (k0 =? k); simpl; tauto.
Qed.

Lemma NoDup_keys_delete o k :
  NoDup (JsObject.keys o) -> NoDup (JsObject.keys (JsObject.delete o k)).
Proof.
  induction o as [|[k0 v0] o IH]; simpl; [constructor|].
  intros Hnd. inversion Hnd as [|? ? Hnotin Hnd']; subst.
  destruct (k0 =? k); simpl; [auto|].
  constructor; [|auto]. intros Hin. apply Hnotin.
  eapply keys_delete_incl, Hin.
Qed.

(** Entries picked by [g] are untouched when the new entry is not
    picked. *)
Lemma filter_place_index o n k v g :
  g (k, v) = false ->
  filter g (JsObject.place_index n k v o) = filter g o.
Proof.
  intros Hg. induction o as [|[k0 v0] o IH]; simpl; [now rewrite Hg|].
  destruct (Js.array_index k0) as [m|]; [destruct (m <? n)%N|]; simpl;
    rewrite ?Hg, ?IH; reflexivity.
Qed.

Lemma filter_set_new o k v g :
  JsObject.get o k = None -> g (k, v) = false ->
  filter g (JsObject.set o k v) = filter g o.
Proof.
  intros Hnone Hg. unfold JsObject.set.
  rewrite (proj2 (has_false_get o k) Hnone).
  destruct (Js.array_index k).
  - now apply filter_place_index.
  - rewrite filter_app. simpl. rewrite Hg. apply app_nil_r.
Qed.

Lemma filter_replace o k v v0 g :
  JsObject.get o k = Some v0 -> g (k, v) = g (k, v0) ->
  List.map fst (filter g (JsObject.replace o k v)) = List.map fst (filter g o).
Proof.
  intros Hget Hg. induction o as [|[k1 v1] o IH]; simpl; [reflexivity|].
  simpl in Hget. destruct (String.eqb_spec k1 k) as [->|Hne]; simpl.
  - injection Hget as ->. rewrite Hg. now destruct (g (k, v0)).
  - destruct (g (k1, v1)); simpl; now rewrite IH.
Qed.

Lemma filter_delete o k g :
  List.map fst (filter g (JsObject.delete o k))
  = filter (fun k' => negb (k' =? k)) (List.map fst (filter g o)).
Proof.
  induction o as [|[k0 v0] o IH]; simpl; [reflexivity|].
  destruct (String.eqb_spec k0 k) as [->|Hne]; simpl.
  - destruct (g (k, v0)); simpl; [rewrite String.eqb_refl; simpl|]; exact IH.
  - destruct (g (k0, v0)); simpl; [|exact IH].
    destruct (String.eqb_spec k0 k); [congruence|]. simpl. now f_equal.
Qed.

End KeyFacts.

(* ------------------------------------------------------------------ *)
(** ** One call, seen from the room it acts on *)

Lemma step_registry_step (rooms : Rooms) (op : Op) :
  registry_step rooms op (step rooms op).
Proof.
  destruct op as [hostId settings rnd36 now|roomId playerId|roomId playerId
                 |roomId playerId targetTeam|roomId settings]; simpl.
  - unfold RoomManager.createRoom.
    rewrite (addPlayerToRoom_get _ _ hostId true _ (get_set_same _ _ _)).
    unfold Room.with_players; simpl. rewrite set_nil.
    apply (registry_create rooms _ hostId settings rnd36 now).
  - unfold RoomManager.joinRoom, JsObject.lookup.
    destruct (JsObject.get rooms roomId) as [room|] eqn:Hget;
      [|destruct (Js.inherited roomId); apply registry_same].
    destruct (String.eqb_spec (Room.gameState room) "LOBBY"); simpl;
      [|apply registry_same].
    destruct (Z.geb_spec (Z.of_nat (Room.playerCount room))
                (Settings.maxPlayers (Room.settings room)));
      [apply registry_same|].
    rewrite (addPlayerToRoom_get _ _ _ _ room Hget).
    rewrite get_replace_same by congruence.
    apply (registry_room rooms _ roomId room); auto.
    now apply step_join.
  - unfold RoomManager.leaveRoom.
    destruct (JsObject.get rooms roomId) as [room|] eqn:Hget;
      [|apply registry_same].
    destruct (JsObject.delete (Room.players room) playerId)
      as [|[next nextPlayer] others] eqn:Hdel; [apply registry_remove|].
    destruct (String.eqb_spec (Room.hostId room) playerId); simpl.
    + apply (registry_room rooms _ roomId room); auto.
      now apply step_leave_host.
    + apply (registry_room rooms _ roomId room); auto.
      now apply step_leave_other.
  - unfold RoomManager.switchTeam.
    destruct (JsObject.get rooms roomId) as [room|] eqn:Hget;
      [|apply registry_same].
    destruct (JsObject.get (Room.players room) playerId) as [player|] eqn:Hp;
      [|apply registry_same].
    destruct (Player.team player =? _); [apply registry_same|].
    destruct (Z.of_nat _ >=? _)%Z; [apply registry_same|]. simpl.
    apply (registry_room rooms _ roomId room); auto.
    now apply step_switch.
  - unfold RoomManager.updateSettings.
    destruct (JsObject.get rooms roomId) as [room|] eqn:Hget;
      [|apply registry_same].
    simpl. apply (registry_room rooms _ roomId room); auto.
    apply step_update.
Qed.

(* ------------------------------------------------------------------ *)
(** ** Invariants of the registry *)

Lemma get_replace_inv {V : Type} (o : JsObject.t V) (k : string) (v x : V) :
  JsObject.get (JsObject.replace o k v) k = Some x -> x = v.
Proof.
  destruct (JsObject.get o k) as [v0|] eqn:Hget.
  - rewrite get_replace_same by congruence. congruence.
  - intros H. assert (Hin : JsObject.get (JsObject.replace o k v) k <> None)
      by congruence.
    apply get_in_keys in Hin. rewrite keys_replace in Hin.
    apply get_in_keys in Hin. congruence.
Qed.

Lemma all_rooms_registry_step (P : string -> Room.t -> Prop)
    (rooms rooms' : Rooms) (op : Op) :
  registry_step rooms op rooms' ->
  all_rooms P rooms ->
  (forall hostId settings rnd36 now,
     P (RoomManager.generateRoomId rnd36)
       (createdRoom hostId settings rnd36 now)) ->
  (forall roomId room room',
     target op = Some roomId ->
     JsObject.get rooms roomId = Some room ->
     P roomId room -> room_step room op room' -> P roomId room') ->
  all_rooms P rooms'.
Proof.
  intros Hstep Hall Hcreated Hroom.
  destruct Hstep as [|roomId room room' Htarget Hget Hrs|roomId
                    |hostId settings rnd36 now emptyRoom];
    intros r x Hx.
  - now apply Hall.
  - destruct (String.eqb_spec r roomId) as [->|Hne].
    + apply get_replace_inv in Hx. subst x. eauto.
    + rewrite get_replace_other in Hx by assumption. now apply Hall.
  - destruct (String.eqb_spec r roomId) as [->|Hne].
    + rewrite get_delete_same in Hx. discriminate.
    + rewrite get_delete_other in Hx by assumption. now apply Hall.
  - destruct (String.eqb_spec r (RoomManager.generateRoomId rnd36))
      as [->|Hne].
    + apply get_replace_inv in Hx. subst x. apply Hcreated.
    + rewrite get_replace_other, get_set_other in Hx by assumption.
      now apply Hall.
Qed.

Lemma registry_step_keys (rooms rooms' : Rooms) (op : Op) :
  registry_step rooms op rooms' ->
  NoDup (JsObject.keys rooms) -> NoDup (JsObject.keys rooms').
Proof.
  intros [| | |] Hnd; auto.
  - now rewrite keys_replace.
  - now apply NoDup_keys_delete.
  - rewrite keys_replace. now apply NoDup_keys_set.
Qed.

Lemma member_keys (playerId : string) (room : Room.t) :
  member playerId room <-> In playerId (JsObject.keys (Room.players room)).
Proof. apply get_in_keys. Qed.

Lemma createdRoom_ok (hostId : string) (settings : Payload.t)
    (rnd36 : string) (now : Z) :
  room_ok (RoomManager.generateRoomId rnd36)
    (createdRoom hostId settings rnd36 now).
Proof.
  repeat split.
  - simpl. constructor; [simpl; tauto | constructor].
  - apply createdRoom_maxPlayers.
  - apply member_keys. simpl. auto.
Qed.

Lemma room_step_ok (roomId : string) (room room' : Room.t) (op : Op) :
  room_ok roomId room -> room_step room op room' -> room_ok roomId room'.
Proof.
  intros (Hid & Hnd & Hmax & Hhost) Hstep.
  destruct Hstep as [r p Hstate Hcount|r p next nextPlayer others Hdel Hh
                    |r p next nextPlayer others Hdel Hh
                    |r p targetTeam player newTeam Hp
                    |r settings teamSize mapId].
  - repeat split; auto.
    + simpl. now apply NoDup_keys_set.
    + unfold member in *. simpl.
      destruct (String.eqb_spec (Room.hostId room) p) as [->|Hne].
      * rewrite get_set_same. discriminate.
      * now rewrite get_set_other.
  - pose proof (NoDup_keys_delete (Room.players room) p Hnd) as Hnd'.
    rewrite Hdel in Hnd'. repeat split; auto.
    unfold member. simpl. rewrite String.eqb_refl. discriminate.
  - pose proof (NoDup_keys_delete (Room.players room) p Hnd) as Hnd'.
    rewrite Hdel in Hnd'. repeat split; auto.
    unfold member in *. simpl Room.players. simpl Room.hostId.
    rewrite <- Hdel. now rewrite get_delete_other.
  - repeat split; auto.
    + simpl. now rewrite keys_replace.
    + apply member_keys. simpl. rewrite keys_replace. now apply member_keys.
  - set (room1 := Room.with_settings room _).
    pose proof (rebalanceTeams_fields room1) as Hfields.
    pose proof (teams_only_keys _ _ (rebalanceTeams_teams_only room1)) as Hk.
    change (Room.players room1) with (Room.players room) in Hk.
    repeat split.
    + change (Room.id room) with (Room.id room1) in Hid.
      now rewrite <- Hfields in Hid.
    + now rewrite Hk.
    + rewrite rebalanceTeams_settings. simpl. apply Z.mul_comm.
    + apply member_keys. rewrite Hk.
      replace (Room.hostId (RoomManager.rebalanceTeams room1))
        with (Room.hostId room); [now apply member_keys|].
      change (Room.hostId room) with (Room.hostId room1).
      now rewrite <- Hfields at 1.
Qed.

(** Every registry that sequences of calls produce is well formed. *)
Lemma run_well_formed (ops : list Op) :
  NoDup (JsObject.keys (run ops)) /\ all_rooms room_ok (run ops).
Proof.
  unfold run.
  assert (Hgen : forall rooms,
             NoDup (JsObject.keys rooms) /\ all_rooms room_ok rooms ->
             NoDup (JsObject.keys (fold_left step ops rooms)) /\
             all_rooms room_ok (fold_left step ops rooms)).
  { induction ops as [|op ops IH]; intros rooms (Hnd & Hall); simpl; [auto|].
    apply IH. pose proof (step_registry_step rooms op) as Hstep. split.
    - eapply registry_step_keys; eassumption.
    - eapply all_rooms_registry_step; try eassumption.
      + apply createdRoom_ok.
      + intros roomId room room' _ _ Hok Hrs. eapply room_step_ok; eassumption. }
  apply Hgen. split; [constructor | intros r x Hx; discriminate].
Qed.

(* ------------------------------------------------------------------ *)
(** ** The host flag *)

Lemma teams_only_hostFlagged (ps ps' : JsObject.t Player.t) :
  teams_only ps ps' ->
  List.map fst (filter (fun e => Player.isHost (snd e)) ps')
  = List.map fst (filter (fun e => Player.isHost (snd e)) ps).
Proof.
  induction 1 as [|[k p] [k' p'] ps ps' (Hk & _ & _ & Hh & _) _ IH]; simpl;
    [reflexivity|].
  simpl in Hk, Hh. subst k'. rewrite Hh.
  destruct (Player.isHost p); simpl; now rewrite IH.
Qed.

Lemma room_step_one_host (room room' : Room.t) (op : Op) :
  one_host room ->
  room_step room op room' ->
  (forall roomId playerId, op = OpJoin roomId playerId ->
                           ~ member playerId room) ->
  one_host room'.
Proof.
  unfold one_host, hostFlagged. intros Hone Hstep Hfresh.
  destruct Hstep as [r p Hstate Hcount|r p next nextPlayer others Hdel Hh
                    |r p next nextPlayer others Hdel Hh
                    |r p targetTeam player newTeam Hp
                    |r settings teamSize mapId].
  - simpl. rewrite filter_set_new; auto.
    specialize (Hfresh r p eq_refl). unfold member in Hfresh.
    destruct (JsObject.get (Room.players room) p); [|reflexivity].
    exfalso. apply Hfresh. discriminate.
  - pose proof (filter_delete (Room.players room) p
                  (fun e => Player.isHost (snd e))) as Hd.
    rewrite Hone, Hdel, Hh in Hd. simpl in Hd.
    rewrite String.eqb_refl in Hd. simpl in Hd.
    destruct (Player.isHost nextPlayer); [discriminate|].
    simpl. now rewrite Hd.
  - pose proof (filter_delete (Room.players room) p
                  (fun e => Player.isHost (snd e))) as Hd.
    rewrite Hone, Hdel in Hd. simpl in Hd |- *.
    destruct (String.eqb_spec (Room.hostId room) p); [congruence|].
    exact Hd.
  - simpl. rewrite (filter_replace _ _ _ player); auto.
  - set (room1 := Room.with_settings room _).
    rewrite (teams_only_hostFlagged _ _ (rebalanceTeams_teams_only room1)).
    simpl. rewrite Hone. f_equal.
    change (Room.hostId room) with (Room.hostId room1).
    now rewrite <- (rebalanceTeams_fields room1) at 1.
Qed.

(** As long as nobody joins a room they are already in, every room has
    exactly one member flagged as host, and it is [hostId]. *)
Lemma one_host_without_rejoin (ops : list Op) :
  no_rejoin [] ops ->
  all_rooms (fun _ room => one_host room) (run ops).
Proof.
  unfold run.
  assert (Hgen : forall rooms,
             all_rooms (fun _ room => one_host room) rooms ->
             no_rejoin rooms ops ->
             all_rooms (fun _ room => one_host room)
               (fold_left step ops rooms)).
  { induction ops as [|op ops IH]; intros rooms Hall Hfresh; simpl; [auto|].
    destruct Hfresh as (Hop & Hrest). apply IH; [|exact Hrest].
    eapply all_rooms_registry_step.
    - apply step_registry_step.
    - exact Hall.
    - reflexivity.
    - intros roomId room room' Htarget Hget Hone Hrs.
      apply (room_step_one_host room room' op Hone Hrs).
      intros r p ->. simpl in Htarget. injection Htarget as ->.
      now apply (Hop roomId p). }
  intros Hfresh. apply Hgen; [|exact Hfresh].
  intros r x Hx. discriminate.
Qed.

Example one_host_in_crowdedLobby :
  all_rooms (fun _ room => one_host room)
    (fst (RoomManager.leaveRoom crowdedLobby "ABCD" "P1")).
Proof.
  apply (one_host_without_rejoin
           [OpCreate "P1" (Payload.mk (Some 2%Z) None) "0.abcdef" 0;
            OpJoin "ABCD" "P2"; OpJoin "ABCD" "P3"; OpLeave "ABCD" "P1"]).
  simpl. repeat split; intros roomId playerId room Hop; try discriminate;
    injection Hop as <- <-; intros [= <-]; unfold member; simpl; congruence.
Qed.

(** When the host leaves and members remain, the first of them in
    iteration order becomes the host. *)
Lemma leaveRoom_promotes_first (rooms : Rooms) (roomId playerId : string)
    (room : Room.t) (next : string) (rest : list string) :
  RoomManager.getRoom rooms roomId = Some room ->
  Room.hostId room = playerId ->
  JsObject.keys (JsObject.delete (Room.players room) playerId) = next :: rest ->
  exists rooms' room' nextPlayer,
    RoomManager.leaveRoom rooms roomId playerId
    = (rooms', RoomManager.LeaveNewHost next) /\
    RoomManager.getRoom rooms' roomId = Some room' /\
    Room.hostId room' = next /\
    JsObject.keys (Room.players room') = next :: rest /\
    JsObject.get (Room.players room') next = Some nextPlayer /\
    Player.isHost nextPlayer = true.
Proof.
  unfold RoomManager.getRoom, RoomManager.leaveRoom.
  intros Hget Hhost Hkeys. rewrite Hget.
  destruct (JsObject.delete (Room.players room) playerId)
    as [|[k nextPlayer] others]; [discriminate|].
  simpl in Hkeys. injection Hkeys as -> <-.
  rewrite Hhost, String.eqb_refl.
  eexists _, _, (Player.with_isHost nextPlayer true).
  split; [reflexivity|]. split; [apply get_replace_same; congruence|].
  repeat split. simpl. now rewrite String.eqb_refl.
Qed.

(** When the last member leaves, the room is removed from the registry. *)
Lemma leaveRoom_last_removes_room (rooms : Rooms) (roomId playerId : string)
    (room : Room.t) :
  RoomManager.getRoom rooms roomId = Some room ->
  JsObject.keys (JsObject.delete (Room.players room) playerId) = [] ->
  RoomManager.leaveRoom rooms roomId playerId
  = (JsObject.delete rooms roomId, RoomManager.LeaveUndefined) /\
  RoomManager.getRoom (JsObject.delete rooms roomId) roomId = None.
Proof.
  unfold RoomManager.getRoom, RoomManager.leaveRoom.
  intros Hget Hkeys. rewrite Hget.
  destruct (JsObject.delete (Room.players room) playerId); [|discriminate].
  split; [reflexivity | apply get_delete_same].
Qed.

(** C2: the host of a room joins that room again.  [joinRoom] succeeds
    and overwrites the host's entry with a non-host one: the room has one
    member, [hostId] still names that member, and no member is flagged as
    host. *)
Theorem host_rejoin_clears_host_flag :
  run [OpCreate "P1" Payload.empty "0.abcdef" 0; OpJoin "ABCD" "P1"]
  = [("ABCD", rejoinedRoom)] /\
  RoomManager.joinRoom lobbyP1 "ABCD" "P1"
  = Some ([("ABCD", rejoinedRoom)], RoomManager.JoinSuccess rejoinedRoom) /\
  Room.playerCount rejoinedRoom = 1%nat /\
  Room.hostId rejoinedRoom = "P1" /\
  hostFlagged rejoinedRoom = [] /\
  ~ one_host rejoinedRoom.
Proof.
  repeat split. discriminate.
Qed.

(* ------------------------------------------------------------------ *)
(** ** Scenarios *)

(** Three players in a room of team size 2: P1 on BLUE, P2 on RED, and P3
    on BLUE by the tie rule. *)
Example scenario_three_join :
  List.map (fun r => (RoomManager.teamMembers "BLUE" (Room.players r),
                      RoomManager.teamMembers "RED" (Room.players r),
                      Settings.maxPlayers (Room.settings r)))
    (JsObject.values crowdedLobby)
  = [(["P1"; "P3"], ["P2"], 4%Z)].
Proof. reflexivity. Qed.

(** A full room refuses a third player. *)
Example scenario_room_full :
  RoomManager.joinRoom lobbyP1P2 "ABCD" "P3"
  = Some (lobbyP1P2, RoomManager.JoinError "Room full").
Proof. reflexivity. Qed.

(** The host leaves a room of three: P2, first of the remaining players,
    becomes host. *)
Example scenario_host_leaves :
  snd (RoomManager.leaveRoom crowdedLobby "ABCD" "P1")
  = RoomManager.LeaveNewHost "P2" /\
  List.map (fun r => (Room.hostId r, hostFlagged r,
                      JsObject.keys (Room.players r)))
    (JsObject.values (fst (RoomManager.leaveRoom crowdedLobby "ABCD" "P1")))
  = [("P2", ["P2"], ["P2"; "P3"])].
Proof. split; reflexivity. Qed.

(** The last member leaves: the registry is empty again. *)
Example scenario_last_leaves :
  RoomManager.leaveRoom lobbyP1 "ABCD" "P1" = ([], RoomManager.LeaveUndefined).
Proof. reflexivity. Qed.

(** The host's settings update is applied and broadcast to the room. *)
Example scenario_host_updates_settings :
  snd (Server.handle lobbyP1P2 "P1"
         (Server.update_room_settings (Payload.mk (Some 3%Z) (Some "arena"))))
  = [Server.EmitRoom "ABCD"
       (Server.room_settings_updated (Settings.mk 6 3 "arena"))].
Proof. reflexivity. Qed.

(** Array-index codes are enumerated first, in numeric order. *)
Example scenario_numeric_codes_first :
  JsObject.keys
    (run [OpCreate "P1" Payload.empty "0.abcdef" 0;
          OpCreate "P2" Payload.empty "0.1234zz" 1;
          OpCreate "P3" Payload.empty "0.0234zz" 2;
          OpCreate "P4" Payload.empty "0.99" 3])
  = ["99"; "1234"; "ABCD"; "0234"].
Proof. reflexivity. Qed.

(* ------------------------------------------------------------------ *)
(** ** More on dictionaries *)

Section ObjectNoOps.
Context {V : Type}.
Implicit Types (o : JsObject.t V) (k : string) (v : V).

Lemma delete_absent o k : JsObject.get o k = None -> JsObject.delete o k = o.
Proof.
  induction o as [|[k0 v0] o IH]; simpl; [reflexivity|].
  destruct (k0 =? k); [discriminate|]. intros H. now rewrite IH.
Qed.

Lemma replace_same_value o k v :
  JsObject.get o k = Some v -> JsObject.replace o k v = o.
Proof.
  induction o as [|[k0 v0] o IH]; simpl; [reflexivity|].
  destruct (k0 =? k); [congruence|]. intros H. now rewrite IH.
Qed.



Lemma get_entry o k v : JsObject.get o k = Some v -> In (k, v) o.
Proof.
  induction o as [|[k0 v0] o IH]; simpl; [discriminate|].
  destruct (String.eqb_spec k0 k) as [->|Hne]; [|auto].
  intros [= ->]. auto.
Qed.

End ObjectNoOps.

(* ------------------------------------------------------------------ *)
(** ** [switchTeam] *)

(** X1: switching twice to the same explicitly named team is the same as
    switching once: the second call succeeds, returns the same player and
    leaves the registry as the first call left it. *)
Theorem switchTeam_twice
    (rooms rooms' : Rooms) (roomId playerId team : string) (player : Player.t)
    (Hnamed : team <> "")
    (Hfirst : RoomManager.switchTeam rooms roomId playerId (Some team)
              = (rooms', RoomManager.SwitchSuccess player)) :
  Player.team player = team /\
  RoomManager.switchTeam rooms' roomId playerId (Some team)
  = (rooms', RoomManager.SwitchSuccess player).
Proof.
  assert (Hor : forall d, Js.or_string (Some team) d = team).
  { intros d. simpl. destruct (String.eqb_spec team ""); congruence. }
  unfold RoomManager.switchTeam in Hfirst.
  destruct (JsObject.get rooms roomId) as [room|] eqn:Hget; [|discriminate].
  destruct (JsObject.get (Room.players room) playerId) as [p|] eqn:Hp;
    [|discriminate].
  rewrite Hor in Hfirst.
  destruct (String.eqb_spec (Player.team p) team) as [Hteam|Hteam].
  - injection Hfirst as <- <-. split; [exact Hteam|].
    unfold RoomManager.switchTeam. rewrite Hget, Hp, Hor, Hteam.
    now rewrite String.eqb_refl.
  - destruct (Z.of_nat (Room.teamCount room team)
              >=? Settings.teamSize (Room.settings room))%Z;
      [discriminate|].
    injection Hfirst as <- <-. split; [reflexivity|].
    unfold RoomManager.switchTeam.
    rewrite get_replace_same by congruence. simpl Room.players.
    rewrite get_replace_same by congruence.
    rewrite Hor. simpl Player.team. now rewrite String.eqb_refl.
Qed.

Lemma switchTeam_twice_witness :
  Player.team (Player.mk "P3" "RED" false false None) = "RED" /\
  RoomManager.switchTeam
    (fst (RoomManager.switchTeam [("ABCD", lopsidedRoom 2)] "ABCD" "P3"
            (Some "RED")))
    "ABCD" "P3" (Some "RED")
  = (fst (RoomManager.switchTeam [("ABCD", lopsidedRoom 2)] "ABCD" "P3"
            (Some "RED")),
     RoomManager.SwitchSuccess (Player.mk "P3" "RED" false false None)).
Proof.
  apply (switchTeam_twice [("ABCD", lopsidedRoom 2)] _ "ABCD" "P3" "RED").
  - discriminate.
  - reflexivity.
Defined.

(** X2: [switchTeam] touches nothing but the [team] of the player named:
    the registry keeps its codes and its other rooms, the room keeps all
    its fields and the keys of [players], every other player is
    unchanged, and the player is the same up to the team.  When the call
    does not report success the registry is exactly as before, and on
    success the player returned is the one now stored. *)
Theorem switchTeam_frame
    (rooms : Rooms) (roomId playerId : string) (targetTeam : option string) :
  let rooms' := fst (RoomManager.switchTeam rooms roomId playerId targetTeam) in
  let result := snd (RoomManager.switchTeam rooms roomId playerId targetTeam) in
  JsObject.keys rooms' = JsObject.keys rooms /\
  (forall r, r <> roomId -> JsObject.get rooms' r = JsObject.get rooms r) /\
  ((forall player, result <> RoomManager.SwitchSuccess player) ->
   rooms' = rooms) /\
  (forall room,
     JsObject.get rooms roomId = Some room ->
     exists room',
       JsObject.get rooms' roomId = Some room' /\
       Room.with_players room' (Room.players room) = room /\
       JsObject.keys (Room.players room') = JsObject.keys (Room.players room) /\
       (forall q, q <> playerId ->
                  JsObject.get (Room.players room') q
                  = JsObject.get (Room.players room) q) /\
       (forall p, JsObject.get (Room.players room) playerId = Some p ->
                  exists p',
                    JsObject.get (Room.players room') playerId = Some p' /\
                    same_but_team p p') /\
       (forall player, result = RoomManager.SwitchSuccess player ->
                       JsObject.get (Room.players room') playerId
                       = Some player)).
Proof.
  assert (Hsame : forall room,
             Room.with_players room (Room.players room) = room /\
             JsObject.keys (Room.players room)
             = JsObject.keys (Room.players room) /\
             (forall q, q <> playerId ->
                        JsObject.get (Room.players room) q
                        = JsObject.get (Room.players room) q) /\
             (forall p, JsObject.get (Room.players room) playerId = Some p ->
                        exists p',
                          JsObject.get (Room.players room) playerId
                          = Some p' /\ same_but_team p p')).
  { intros room. split; [now destruct room|]. split; [reflexivity|].
    split; [reflexivity|]. intros p Hp. exists p.
    split; [exact Hp | apply same_but_team_refl]. }
  unfold RoomManager.switchTeam.
  destruct (JsObject.get rooms roomId) as [room|] eqn:Hget; simpl.
  2:{ split; [reflexivity|]. split; [reflexivity|]. split; [reflexivity|].
      intros room Hroom. discriminate. }
  destruct (JsObject.get (Room.players room) playerId) as [p|] eqn:Hp; simpl.
  2:{ split; [reflexivity|]. split; [reflexivity|]. split; [reflexivity|].
      intros room0 [= <-]. exists room. split; [exact Hget|].
      destruct (Hsame room) as (H1 & H2 & H3 & H4).
      repeat (split; [assumption|]). intros player Hres. discriminate. }
  set (newTeam := Js.or_string targetTeam _).
  destruct (String.eqb_spec (Player.team p) newTeam) as [Hteam|Hteam]; simpl.
  { split; [reflexivity|]. split; [reflexivity|]. split; [reflexivity|].
    intros room0 [= <-]. exists room. split; [exact Hget|].
    destruct (Hsame room) as (H1 & H2 & H3 & H4).
    repeat (split; [assumption|]). intros player [= <-]. exact Hp. }
  destruct (Z.of_nat (Room.teamCount room newTeam)
            >=? Settings.teamSize (Room.settings room))%Z; simpl.
  { split; [reflexivity|]. split; [reflexivity|]. split; [reflexivity|].
    intros room0 [= <-]. exists room. split; [exact Hget|].
    destruct (Hsame room) as (H1 & H2 & H3 & H4).
    repeat (split; [assumption|]). intros player Hres. discriminate. }
  split; [apply keys_replace|].
  split; [intros r Hr; now apply get_replace_other|].
  split; [intros Hno; exfalso; now apply (Hno (Player.with_team p newTeam))|].
  intros room0 [= <-]. eexists.
  split; [apply get_replace_same; congruence|]. simpl.
  split; [now destruct room|]. split; [apply keys_replace|].
  split; [intros q Hq; now apply get_replace_other|].
  split.
  - intros p0 Hp0. assert (p0 = p) as -> by congruence.
    exists (Player.with_team p newTeam).
    split; [apply get_replace_same; congruence | repeat split].
  - intros player [= <-]. apply get_replace_same. congruence.
Qed.

(* ------------------------------------------------------------------ *)
(** ** [leaveRoom] *)

Lemma keys_delete {V : Type} (o : JsObject.t V) (k : string) :
  JsObject.keys (JsObject.delete o k)
  = filter (fun k' => negb (k' =? k)) (JsObject.keys o).
Proof.
  induction o as [|[k0 v0] o IH]; simpl; [reflexivity|].
  destruct (k0 =? k); simpl; [exact IH | now f_equal].
Qed.

Lemma leaveRoom_room (rooms : Rooms) (roomId playerId : string)
    (room : Room.t) :
  JsObject.get rooms roomId = Some room ->
  (JsObject.delete (Room.players room) playerId = [] /\
   RoomManager.leaveRoom rooms roomId playerId
   = (JsObject.delete rooms roomId, RoomManager.LeaveUndefined)) \/
  (exists room',
     JsObject.delete (Room.players room) playerId <> [] /\
     fst (RoomManager.leaveRoom rooms roomId playerId)
     = JsObject.replace rooms roomId room' /\
     JsObject.keys (Room.players room')
     = JsObject.keys (JsObject.delete (Room.players room) playerId)).
Proof.
  intros Hget. unfold RoomManager.leaveRoom. rewrite Hget.
  destruct (JsObject.delete (Room.players room) playerId)
    as [|[next nextPlayer] others]; [left; auto|].
  right. destruct (Room.hostId room =? playerId); eexists;
    (split; [discriminate|]); split; reflexivity.
Qed.

(** X3: [leaveRoom] on an existing room removes exactly the player named.
    Other rooms are untouched.  The room stays in the registry unless it
    had no other member; when it stays, its [players] keys are the old
    ones without the player, in the same order. *)
Theorem leaveRoom_removes_player
    (rooms : Rooms) (roomId playerId : string) (room : Room.t)
    (Hget : RoomManager.getRoom rooms roomId = Some room) :
  let rooms' := fst (RoomManager.leaveRoom rooms roomId playerId) in
  (forall r, r <> roomId ->
             RoomManager.getRoom rooms' r = RoomManager.getRoom rooms r) /\
  (RoomManager.getRoom rooms' roomId = None <->
   forall q, member q room -> q = playerId) /\
  (forall room',
     RoomManager.getRoom rooms' roomId = Some room' ->
     ~ member playerId room' /\
     JsObject.keys (Room.players room')
     = filter (fun k => negb (k =? playerId))
         (JsObject.keys (Room.players room))).
Proof.
  unfold RoomManager.getRoom in *. simpl.
  assert (Hempty : JsObject.delete (Room.players room) playerId = [] <->
                   forall q, member q room -> q = playerId).
  { split.
    - intros Hdel q Hq. apply member_keys in Hq.
      assert (Hf : In q (filter (fun k => negb (k =? playerId))
                           (JsObject.keys (Room.players room))) -> False)
        by (rewrite <- keys_delete, Hdel; simpl; tauto).
      destruct (String.eqb_spec q playerId) as [|Hne]; [assumption|].
      exfalso. apply Hf, filter_In. split; [exact Hq|].
      destruct (String.eqb_spec q playerId); [congruence | reflexivity].
    - intros Hall.
      destruct (JsObject.delete (Room.players room) playerId)
        as [|[k v] rest] eqn:Hdel; [reflexivity|].
      assert (Hin : In k (JsObject.keys
                            (JsObject.delete (Room.players room) playerId)))
        by (rewrite Hdel; simpl; auto).
      assert (Hk : k = playerId)
        by (apply Hall, member_keys; eapply keys_delete_incl, Hin).
      subst k. apply get_in_keys in Hin.
      now rewrite get_delete_same in Hin. }
  destruct (leaveRoom_room rooms roomId playerId room Hget)
    as [(Hdel & Heq)|(room' & Hdel & Heq & Hkeys)]; rewrite Heq; simpl.
  - split; [intros r Hr; now apply get_delete_other|]. split.
    + rewrite <- Hempty. split; [auto | intros _; apply get_delete_same].
    + intros room' Hroom'. now rewrite get_delete_same in Hroom'.
  - split; [intros r Hr; now apply get_replace_other|]. split.
    + rewrite <- Hempty. rewrite get_replace_same by congruence.
      split; [discriminate | intros H; contradiction].
    + intros room0 Hroom0. apply get_replace_inv in Hroom0. subst room0.
      split.
      * intros Hm. apply member_keys in Hm. rewrite Hkeys in Hm.
        apply get_in_keys in Hm. now rewrite get_delete_same in Hm.
      * rewrite Hkeys. apply keys_delete.
Qed.

Lemma leaveRoom_removes_player_witness :
  (forall r, r <> "ABCD" ->
             RoomManager.getRoom
               (fst (RoomManager.leaveRoom crowdedLobby "ABCD" "P2")) r
             = RoomManager.getRoom crowdedLobby r) /\
  (RoomManager.getRoom
     (fst (RoomManager.leaveRoom crowdedLobby "ABCD" "P2")) "ABCD" = None <->
   forall q,
     member q (Room.mk "ABCD" "P1"
                 [("P1", Player.mk "P1" "BLUE" false true None);
                  ("P2", Player.mk "P2" "RED" false false None);
                  ("P3", Player.mk "P3" "BLUE" false false None)] "LOBBY"
                 (Settings.mk 4 2 "orbital") 0) ->
     q = "P2") /\
  (forall room',
     RoomManager.getRoom
       (fst (RoomManager.leaveRoom crowdedLobby "ABCD" "P2")) "ABCD"
     = Some room' ->
     ~ member "P2" room' /\
     JsObject.keys (Room.players room') = ["P1"; "P3"]).
Proof.
  exact (leaveRoom_removes_player crowdedLobby "ABCD" "P2" _ eq_refl).
Defined.

(** X4: when [leaveRoom] reports a new host, the player who left was the
    host, the new host is another member of the room, first among those
    who remain, and the room now names and flags that member as host. *)
Theorem leaveRoom_reports_handoff
    (rooms : Rooms) (roomId playerId newHostId : string)
    (Hresult : snd (RoomManager.leaveRoom rooms roomId playerId)
               = RoomManager.LeaveNewHost newHostId) :
  exists room room' newHost,
    RoomManager.getRoom rooms roomId = Some room /\
    Room.hostId room = playerId /\
    newHostId <> playerId /\
    member newHostId room /\
    RoomManager.getRoom (fst (RoomManager.leaveRoom rooms roomId playerId))
      roomId = Some room' /\
    Room.hostId room' = newHostId /\
    hd_error (JsObject.keys (Room.players room')) = Some newHostId /\
    JsObject.get (Room.players room') newHostId = Some newHost /\
    Player.isHost newHost = true.
Proof.
  unfold RoomManager.getRoom, RoomManager.leaveRoom in *.
  destruct (JsObject.get rooms roomId) as [room|] eqn:Hget; [|discriminate].
  destruct (JsObject.delete (Room.players room) playerId)
    as [|[next nextPlayer] others] eqn:Hdel; [discriminate|].
  destruct (String.eqb_spec (Room.hostId room) playerId) as [Hhost|Hhost];
    [|discriminate].
  simpl in Hresult. injection Hresult as ->.
  assert (Hin : In newHostId
                  (JsObject.keys
                     (JsObject.delete (Room.players room) playerId)))
    by (rewrite Hdel; simpl; auto).
  exists room. eexists. exists (Player.with_isHost nextPlayer true).
  split; [reflexivity|]. split; [exact Hhost|]. split.
  { intros ->. apply get_in_keys in Hin. now rewrite get_delete_same in Hin. }
  split; [apply member_keys; eapply keys_delete_incl, Hin|].
  simpl. split; [apply get_replace_same; congruence|].
  repeat split. simpl. now rewrite String.eqb_refl.
Qed.

Lemma leaveRoom_reports_handoff_witness :
  exists room room' newHost,
    RoomManager.getRoom crowdedLobby "ABCD" = Some room /\
    Room.hostId room = "P1" /\
    "P2" <> "P1" /\
    member "P2" room /\
    RoomManager.getRoom (fst (RoomManager.leaveRoom crowdedLobby "ABCD" "P1"))
      "ABCD" = Some room' /\
    Room.hostId room' = "P2" /\
    hd_error (JsObject.keys (Room.players room')) = Some "P2" /\
    JsObject.get (Room.players room') "P2" = Some newHost /\
    Player.isHost newHost = true.
Proof.
  exact (leaveRoom_reports_handoff crowdedLobby "ABCD" "P1" "P2" eq_refl).
Defined.

(** X5: [leaveRoom] for a player who is not in the room changes nothing
    and reports nothing, as long as the room's host is one of its
    members. *)
Theorem leaveRoom_of_non_member
    (rooms : Rooms) (roomId playerId : string) (room : Room.t)
    (Hget : RoomManager.getRoom rooms roomId = Some room)
    (Hhost : member (Room.hostId room) room)
    (Hnot : ~ member playerId room) :
  RoomManager.leaveRoom rooms roomId playerId
  = (rooms, RoomManager.LeaveUndefined).
Proof.
  unfold RoomManager.getRoom, RoomManager.leaveRoom, member in *.
  rewrite Hget.
  assert (Hnone : JsObject.get (Room.players room) playerId = None)
    by (destruct (JsObject.get (Room.players room) playerId);
        [exfalso; apply Hnot; discriminate | reflexivity]).
  rewrite (delete_absent _ _ Hnone).
  destruct (Room.players room) as [|[next nextPlayer] others] eqn:Hps;
    [simpl in Hhost; congruence|].
  destruct (String.eqb_spec (Room.hostId room) playerId) as [Heq|_];
    [rewrite Heq in Hhost; congruence|].
  rewrite <- Hps.
  replace (Room.with_players room (Room.players room)) with room
    by now destruct room.
  now rewrite replace_same_value.
Qed.

Lemma leaveRoom_of_non_member_witness :
  RoomManager.leaveRoom lobbyP1P2 "ABCD" "P9"
  = (lobbyP1P2, RoomManager.LeaveUndefined).
Proof.
  apply (leaveRoom_of_non_member lobbyP1P2 "ABCD" "P9"
           (Room.with_players (soloRoom "P1" 0)
              [("P1", Player.mk "P1" "BLUE" false true None);
               ("P2", Player.mk "P2" "RED" false false None)])).
  - reflexivity.
  - unfold member. simpl. discriminate.
  - unfold member. simpl. intros H. now apply H.
Defined.

(* ------------------------------------------------------------------ *)
(** ** Room capacity *)







(* ------------------------------------------------------------------ *)
(** ** [getPlayerRoom] *)

Lemma getPlayerRoom_some (rooms : Rooms) (playerId : string) (room : Room.t) :
  RoomManager.getPlayerRoom rooms playerId = Some room ->
  member playerId room /\ exists roomId, In (roomId, room) rooms.
Proof.
  unfold RoomManager.getPlayerRoom. intros Hfind.
  apply find_some in Hfind. destruct Hfind as (Hin & Hhas).
  split; [now apply has_get|].
  apply in_map_iff in Hin. destruct Hin as ([roomId room0] & Heq & Hin).
  simpl in Heq. subst room0. eauto.
Qed.

(** X8: in a well-formed registry, the room [getPlayerRoom] returns holds
    the player and is the room stored under its own [id], so that the
    handlers' calls with [room.id] act on the room found; and it returns
    nothing exactly when no room holds the player. *)
Theorem getPlayerRoom_lookup
    (rooms : Rooms) (playerId : string) (Hwf : well_formed rooms) :
  (forall room,
     RoomManager.getPlayerRoom rooms playerId = Some room ->
     member playerId room /\
     RoomManager.getRoom rooms (Room.id room) = Some room) /\
  (RoomManager.getPlayerRoom rooms playerId = None <->
   forall roomId room,
     RoomManager.getRoom rooms roomId = Some room -> ~ member playerId room).
Proof.
  destruct Hwf as (Hnd & Hall). unfold RoomManager.getRoom.
  assert (Hsome : forall room,
             RoomManager.getPlayerRoom rooms playerId = Some room ->
             member playerId room /\
             JsObject.get rooms (Room.id room) = Some room).
  { intros room Hfind.
    destruct (getPlayerRoom_some rooms playerId room Hfind)
      as (Hmem & roomId & Hin).
    split; [exact Hmem|].
    pose proof (get_of_entry rooms roomId room Hnd Hin) as Hget.
    destruct (Hall roomId room Hget) as (Hid & _). now rewrite Hid. }
  split; [exact Hsome|]. split.
  - intros Hnone roomId room Hget Hmem.
    unfold RoomManager.getPlayerRoom in Hnone.
    assert (Hin : In room (JsObject.values rooms)).
    { apply in_map_iff. exists (roomId, room).
      split; [reflexivity | now apply get_entry]. }
    pose proof (find_none _ _ Hnone room Hin) as Hhas. simpl in Hhas.
    apply has_get in Hmem. congruence.
  - intros Hno.
    destruct (RoomManager.getPlayerRoom rooms playerId) as [room|] eqn:Hfind;
      [|reflexivity].
    destruct (Hsome room eq_refl) as (Hmem & Hget).
    exfalso. exact (Hno _ room Hget Hmem).
Qed.

Lemma getPlayerRoom_lookup_witness :
  (forall room,
     RoomManager.getPlayerRoom lobbyP1P2 "P2" = Some room ->
     member "P2" room /\
     RoomManager.getRoom lobbyP1P2 (Room.id room) = Some room) /\
  (RoomManager.getPlayerRoom lobbyP1P2 "P2" = None <->
   forall roomId room,
     RoomManager.getRoom lobbyP1P2 roomId = Some room -> ~ member "P2" room).
Proof.
  apply (getPlayerRoom_lookup lobbyP1P2 "P2").
  exact (run_well_formed
           [OpCreate "P1" Payload.empty "0.abcdef" 0; OpJoin "ABCD" "P2"]).
Defined.

(* ------------------------------------------------------------------ *)
(** ** Room codes in the registry *)

Lemma upper_upper (c : ascii) : Js.upper (Js.upper c) = Js.upper c.
Proof.
  destruct c as [[] [] [] [] [] [] [] []]; reflexivity.
Qed.

Lemma toUpperCase_idempotent (s : string) :
  Js.toUpperCase (Js.toUpperCase s) = Js.toUpperCase s.
Proof.
  induction s as [|c s IH]; simpl; [reflexivity|].
  now rewrite upper_upper, IH.
Qed.

Lemma generateRoomId_code (rnd36 : string) :
  code_shape (RoomManager.generateRoomId rnd36).
Proof.
  split; [apply generateRoomId_length|].
  unfold RoomManager.generateRoomId. apply toUpperCase_idempotent.
Qed.

Lemma run_codes (ops : list Op) :
  all_rooms (fun roomId _ => code_shape roomId) (run ops).
Proof.
  unfold run.
  assert (Hgen : forall rooms,
             all_rooms (fun roomId _ => code_shape roomId) rooms ->
             all_rooms (fun roomId _ => code_shape roomId)
               (fold_left step ops rooms)).
  { induction ops as [|op ops IH]; intros rooms Hall; simpl; [auto|].
    apply IH. eapply all_rooms_registry_step.
    - apply step_registry_step.
    - exact Hall.
    - intros hostId settings rnd36 now. apply generateRoomId_code.
    - auto. }
  apply Hgen. intros r x Hx. discriminate.
Qed.

(** X9: every code in a registry reached by calls has at most four
    characters and is its own upper-case form; so [joinRoom] with a
    longer code, or with one that has a lower-case letter, changes
    nothing and answers with an error: ["Game already started"] when the
    code is a name every object inherits (["constructor"],
    ["__proto__"], ["toString"], ...), ["Room not found"] otherwise. *)
Theorem joinRoom_needs_code_shape
    (ops : list Op) (roomId playerId : string)
    (Hshape : ~ code_shape roomId) :
  RoomManager.joinRoom (run ops) roomId playerId
  = Some (run ops,
          RoomManager.JoinError
            (if Js.inherited roomId then "Game already started"
             else "Room not found")).
Proof.
  unfold RoomManager.joinRoom, JsObject.lookup.
  destruct (JsObject.get (run ops) roomId) as [room|] eqn:Hget;
    [|destruct (Js.inherited roomId); reflexivity].
  exfalso. apply Hshape. exact (run_codes ops roomId room Hget).
Qed.

Lemma joinRoom_needs_code_shape_witness :
  RoomManager.joinRoom lobbyP1 "abcd" "P2"
  = Some (lobbyP1, RoomManager.JoinError "Room not found") /\
  RoomManager.joinRoom lobbyP1 "constructor" "P2"
  = Some (lobbyP1, RoomManager.JoinError "Game already started").
Proof.
  split.
  - apply (joinRoom_needs_code_shape
             [OpCreate "P1" Payload.empty "0.abcdef" 0] "abcd" "P2").
    intros (_ & Hupper). discriminate.
  - apply (joinRoom_needs_code_shape
             [OpCreate "P1" Payload.empty "0.abcdef" 0] "constructor" "P2").
    intros (Hlen & _). simpl in Hlen. lia.
Defined.

(* ------------------------------------------------------------------ *)
(** ** [rebalanceTeams] and [updateSettings], continued *)

Lemma moveExcess_stops (popped pushed : list string) (teamSize : Z)
    (tm : string) (ps : JsObject.t Player.t) :
  ~ ((Z.of_nat (List.length popped) > teamSize)%Z /\
     (Z.of_nat (List.length pushed) < teamSize)%Z) ->
  RoomManager.moveExcess popped pushed teamSize tm ps = (popped, pushed, ps).
Proof.
  intros Hstop. destruct popped as [|moved rest]; [reflexivity|].
  rewrite moveExcess_cons.
  destruct (Z.gtb_spec (Z.of_nat (List.length (moved :: rest))) teamSize);
    [|reflexivity].
  destruct (Z.ltb_spec (Z.of_nat (List.length pushed)) teamSize);
    [|reflexivity].
  exfalso. apply Hstop. lia.
Qed.

Lemma moveExcess_lengths (popped : list string) :
  forall (pushed : list string) (teamSize : Z) (tm : string)
         (ps : JsObject.t Player.t),
    (List.length (fst (fst (RoomManager.moveExcess popped pushed teamSize tm ps)))
     <= List.length popped)%nat /\
    (List.length pushed
     <= List.length
          (snd (fst (RoomManager.moveExcess popped pushed teamSize tm ps))))%nat.
Proof.
  induction popped as [|moved rest IH]; intros; [simpl; lia|].
  rewrite moveExcess_cons.
  destruct ((Z.of_nat (List.length (moved :: rest)) >? teamSize)
            && (Z.of_nat (List.length pushed) <? teamSize))%Z;
    [|simpl; lia].
  destruct (IH (pushed ++ [moved]) teamSize tm
              (JsObject.modify ps moved (fun p => Player.with_team p tm)))
    as (H1 & H2).
  rewrite length_app in H2. simpl in *. lia.
Qed.

(** When neither loop test holds, [rebalanceTeams] moves nobody. *)
Lemma rebalanceTeams_stops (room : Room.t) :
  let teamSize := Settings.teamSize (Room.settings room) in
  let blue := Z.of_nat (Room.teamCount room "BLUE") in
  let red := Z.of_nat (Room.teamCount room "RED") in
  ~ ((blue > teamSize)%Z /\ (red < teamSize)%Z) ->
  ~ ((red > teamSize)%Z /\ (blue < teamSize)%Z) ->
  RoomManager.rebalanceTeams room = room.
Proof.
  simpl. rewrite !teamCount_count_on, <- !teamMembers_length.
  intros H1 H2. unfold RoomManager.rebalanceTeams.
  rewrite moveExcess_stops by (now rewrite length_rev).
  rewrite moveExcess_stops by (now rewrite !length_rev).
  now destruct room.
Qed.

Lemma rebalanceTeams_sizes
    (room : Room.t)
    (Hkeys : NoDup (JsObject.keys (Room.players room))) :
  let teamSize := Settings.teamSize (Room.settings room) in
  let blue := Z.of_nat (Room.teamCount room "BLUE") in
  let red := Z.of_nat (Room.teamCount room "RED") in
  let blue' :=
    Z.of_nat (Room.teamCount (RoomManager.rebalanceTeams room) "BLUE") in
  let red' :=
    Z.of_nat (Room.teamCount (RoomManager.rebalanceTeams room) "RED") in
  (blue' + red' = blue + red)%Z /\
  (blue' <= Z.max blue teamSize)%Z /\
  (red' <= Z.max red teamSize)%Z /\
  ~ ((blue' > teamSize)%Z /\ (red' < teamSize)%Z) /\
  ~ ((red' > teamSize)%Z /\ (blue' < teamSize)%Z).
Proof.
  simpl. unfold RoomManager.rebalanceTeams.
  set (ts := Settings.teamSize (Room.settings room)).
  set (ps := Room.players room) in *.
  pose proof (arrays_of_start "BLUE" "RED" ps Hkeys) as Harr.
  pose proof (moveExcess_lengths (rev (RoomManager.teamMembers "BLUE" ps))
                (RoomManager.teamMembers "RED" ps) ts "RED" ps) as Hmono1.
  destruct (RoomManager.moveExcess (rev (RoomManager.teamMembers "BLUE" ps))
              (RoomManager.teamMembers "RED" ps) ts "RED" ps)
    as [[blue1 red1] ps1] eqn:Hloop1.
  destruct (moveExcess_spec "BLUE" "RED" ltac:(discriminate) _ _ _ _ _ _ _
              Harr Hloop1) as (Harr1 & Hsum1 & Hmax1 & Hexit1).
  apply arrays_of_swap in Harr1.
  pose proof (moveExcess_lengths (rev red1) (rev blue1) ts "BLUE" ps1)
    as Hmono2.
  destruct (RoomManager.moveExcess (rev red1) (rev blue1) ts "BLUE" ps1)
    as [[red2 blue2] ps2] eqn:Hloop2.
  destruct (moveExcess_spec "RED" "BLUE" ltac:(discriminate) _ _ _ _ _ _ _
              Harr1 Hloop2) as (Harr2 & Hsum2 & Hmax2 & Hexit2).
  destruct Harr2 as (_ & _ & _ & _ & Hred2 & Hblue2).
  rewrite !teamCount_count_on. simpl Room.players. fold ps.
  rewrite <- !teamMembers_length in *.
  simpl in Hmono1, Hmono2. rewrite !length_rev in *.
  rewrite Hred2, Hblue2. lia.
Qed.



Lemma rebalanceTeams_keys (room : Room.t) :
  JsObject.keys (Room.players (RoomManager.rebalanceTeams room))
  = JsObject.keys (Room.players room).
Proof. apply teams_only_keys, rebalanceTeams_teams_only. Qed.

(** X11: rebalancing twice is rebalancing once. *)
Theorem rebalanceTeams_idempotent
    (room : Room.t)
    (Hkeys : NoDup (JsObject.keys (Room.players room))) :
  RoomManager.rebalanceTeams (RoomManager.rebalanceTeams room)
  = RoomManager.rebalanceTeams room.
Proof.
  destruct (rebalanceTeams_sizes room Hkeys) as (_ & _ & _ & H1 & H2).
  apply rebalanceTeams_stops; rewrite rebalanceTeams_settings; assumption.
Qed.

Lemma rebalanceTeams_idempotent_witness :
  RoomManager.rebalanceTeams (RoomManager.rebalanceTeams (lopsidedRoom 1))
  = RoomManager.rebalanceTeams (lopsidedRoom 1).
Proof.
  exact (rebalanceTeams_idempotent (lopsidedRoom 1) (lopsidedRoom_keys 1)).
Defined.







(** X13: an update that supplies nothing (fields missing, [0] or empty)
    leaves the whole registry unchanged, provided the room's [maxPlayers]
    is twice its [teamSize] and no team is over [teamSize]. *)
Theorem updateSettings_nothing_supplied
    (rooms : Rooms) (roomId : string) (settings : Payload.t) (room : Room.t)
    (Hget : RoomManager.getRoom rooms roomId = Some room)
    (Hsize : Payload.teamSize settings = None \/
             Payload.teamSize settings = Some 0%Z)
    (Hmap : Payload.map settings = None \/ Payload.map settings = Some "")
    (Hmax : Settings.maxPlayers (Room.settings room)
            = (2 * Settings.teamSize (Room.settings room))%Z)
    (Hwithin : teams_within room) :
  RoomManager.updateSettings rooms roomId settings = (rooms, Some room).
Proof.
  destruct (updateSettings_get rooms roomId settings room Hget) as (Hupd & _).
  rewrite Hupd.
  assert (Hsettings :
            Room.with_settings room
              (Settings.mk
                 (Js.or_number (Js.parseInt (Payload.teamSize settings))
                    (Settings.teamSize (Room.settings room)) * 2)
                 (Js.or_number (Js.parseInt (Payload.teamSize settings))
                    (Settings.teamSize (Room.settings room)))
                 (Js.or_string (Payload.map settings)
                    (Settings.map (Room.settings room))))
            = room).
  { destruct Hsize as [-> | ->], Hmap as [-> | ->]; simpl;
      destruct room as [i h ps g [mp ts mapId] c]; simpl in *; subst mp;
      unfold Room.with_settings; simpl; now rewrite (Z.mul_comm ts 2). }
  rewrite Hsettings.
  assert (Hnoop : RoomManager.rebalanceTeams room = room).
  { destruct Hwithin as (Hb & Hr). apply rebalanceTeams_stops; lia. }
  rewrite Hnoop. unfold RoomManager.getRoom in Hget.
  now rewrite replace_same_value.
Qed.

Lemma updateSettings_nothing_supplied_witness :
  RoomManager.updateSettings crowdedLobby "ABCD" (Payload.mk (Some 0%Z) None)
  = (crowdedLobby,
     Some (Room.mk "ABCD" "P1"
             [("P1", Player.mk "P1" "BLUE" false true None);
              ("P2", Player.mk "P2" "RED" false false None);
              ("P3", Player.mk "P3" "BLUE" false false None)] "LOBBY"
             (Settings.mk 4 2 "orbital") 0)).
Proof.
  apply (updateSettings_nothing_supplied crowdedLobby "ABCD").
  - reflexivity.
  - right. reflexivity.
  - left. reflexivity.
  - reflexivity.
  - split; apply Z.leb_le; reflexivity.
Defined.

(* ------------------------------------------------------------------ *)
(** ** Host invariants, with sample runs *)

(** X14: every registry reached by a sequence of calls is well formed:
    no code is stored twice, each room is stored under its own [id], no
    player key is repeated in a room, [maxPlayers] is twice [teamSize],
    and the player [hostId] names is a member of the room. *)
Theorem registry_well_formed (ops : list Op) : well_formed (run ops).
Proof.
  destruct (run_well_formed ops) as (Hkeys & Hrooms).
  split; [exact Hkeys | exact Hrooms].
Qed.

(** X15: as long as no player joins a room they are already in, every
    room of every registry reached has exactly one member flagged as host,
    the one [hostId] names; [updateSettings], [switchTeam] and host
    handoff on [leaveRoom] all keep it so. *)
Theorem one_host_kept_without_rejoin
    (ops : list Op) (Hfresh : no_rejoin [] ops) :
  forall roomId room,
    RoomManager.getRoom (run ops) roomId = Some room ->
    hostFlagged room = [Room.hostId room].
Proof.
  intros roomId room Hget.
  exact (one_host_without_rejoin ops Hfresh roomId room Hget).
Qed.

Lemma one_host_kept_without_rejoin_witness :
  exists room,
    RoomManager.getRoom
      (run [OpCreate "P1" (Payload.mk (Some 2%Z) None) "0.abcdef" 0;
            OpJoin "ABCD" "P2"; OpJoin "ABCD" "P3"; OpLeave "ABCD" "P1";
            OpUpdate "ABCD" (Payload.mk (Some 1%Z) None)]) "ABCD"
    = Some room /\
    hostFlagged room = [Room.hostId room].
Proof.
  eexists. split; [reflexivity|].
  apply (one_host_kept_without_rejoin
           [OpCreate "P1" (Payload.mk (Some 2%Z) None) "0.abcdef" 0;
            OpJoin "ABCD" "P2"; OpJoin "ABCD" "P3"; OpLeave "ABCD" "P1";
            OpUpdate "ABCD" (Payload.mk (Some 1%Z) None)])
    with (roomId := "ABCD"); [|reflexivity].
  simpl. repeat split; intros roomId playerId room Hop; try discriminate;
    injection Hop as <- <-; intros [= <-]; unfold member; simpl; congruence.
Defined.

(** X16: when the host leaves a room and members remain, the first of
    them in iteration order becomes the host: [leaveRoom] reports that
    player, and the room names and flags that player as host. *)
Theorem host_leaves_first_remaining_promoted
    (rooms : Rooms) (roomId playerId : string) (room : Room.t)
    (next : string) (rest : list string)
    (Hget : RoomManager.getRoom rooms roomId = Some room)
    (Hhost : Room.hostId room = playerId)
    (Hremain : JsObject.keys (JsObject.delete (Room.players room) playerId)
               = next :: rest) :
  exists rooms' room' nextPlayer,
    RoomManager.leaveRoom rooms roomId playerId
    = (rooms', RoomManager.LeaveNewHost next) /\
    RoomManager.getRoom rooms' roomId = Some room' /\
    Room.hostId room' = next /\
    JsObject.keys (Room.players room') = next :: rest /\
    JsObject.get (Room.players room') next = Some nextPlayer /\
    Player.isHost nextPlayer = true.
Proof.
  exact (leaveRoom_promotes_first rooms roomId playerId room next rest
           Hget Hhost Hremain).
Qed.

Lemma host_leaves_first_remaining_promoted_witness :
  exists rooms' room' nextPlayer,
    RoomManager.leaveRoom crowdedLobby "ABCD" "P1"
    = (rooms', RoomManager.LeaveNewHost "P2") /\
    RoomManager.getRoom rooms' "ABCD" = Some room' /\
    Room.hostId room' = "P2" /\
    JsObject.keys (Room.players room') = ["P2"; "P3"] /\
    JsObject.get (Room.players room') "P2" = Some nextPlayer /\
    Player.isHost nextPlayer = true.
Proof.
  apply (host_leaves_first_remaining_promoted crowdedLobby "ABCD" "P1"
           (Room.mk "ABCD" "P1"
              [("P1", Player.mk "P1" "BLUE" false true None);
               ("P2", Player.mk "P2" "RED" false false None);
               ("P3", Player.mk "P3" "BLUE" false false None)] "LOBBY"
              (Settings.mk 4 2 "orbital") 0)); reflexivity.
Defined.

(* ------------------------------------------------------------------ *)
(** ** Payloads put together by the gateway *)

Lemma get_spread (extra : Gateway.Data) :
  forall (base : Gateway.Data) (k : string),
    NoDup (JsObject.keys extra) ->
    JsObject.get (Gateway.spread base extra) k
    = match JsObject.get extra k with
      | Some v => Some v
      | None => JsObject.get base k
      end.
Proof.
  unfold Gateway.spread.
  induction extra as [|[k0 v0] extra IH]; intros base k Hnd; [reflexivity|].
  inversion Hnd as [|? ? Hnotin Hnd']; subst. simpl.
  rewrite IH by assumption.
  destruct (String.eqb_spec k0 k) as [->|Hne].
  - assert (Hnone : JsObject.get extra k = None).
    { destruct (JsObject.get extra k) eqn:E; [|reflexivity].
      exfalso. apply Hnotin. apply get_in_keys. congruence. }
    rewrite Hnone. apply get_set_same.
  - destruct (JsObject.get extra k); [reflexivity|].
    apply get_set_other. congruence.
Qed.

(** X17: a deflect attempt is forwarded exactly when the sender is in a
    room whose host's socket is connected: then the handler emits one
    message, to the host's socket, whose payload carries the sender's own
    id as [playerId], whatever [data] holds, next to the other fields of
    [data]; when the sender is in no room, or the host's socket is not
    connected, it emits nothing. *)
Theorem deflect_attempt_names_sender
    (rooms : Rooms) (connected : string -> bool) (socketId : string)
    (data : Gateway.Data)
    (Hdata : NoDup (JsObject.keys data)) :
  (RoomManager.getPlayerRoom rooms socketId = None ->
   Gateway.on_deflect_attempt rooms connected socketId data = []) /\
  (forall room,
     RoomManager.getPlayerRoom rooms socketId = Some room ->
     connected (Room.hostId room) = false ->
     Gateway.on_deflect_attempt rooms connected socketId data = []) /\
  (forall room,
     RoomManager.getPlayerRoom rooms socketId = Some room ->
     connected (Room.hostId room) = true ->
     exists payload,
       Gateway.on_deflect_attempt rooms connected socketId data
       = [ Gateway.EmitSocket (Room.hostId room)
             (Gateway.deflect_attempt payload) ] /\
       JsObject.get payload "playerId" = Some socketId /\
       (forall k, k <> "playerId" ->
                  JsObject.get payload k = JsObject.get data k)).
Proof.
  unfold Gateway.on_deflect_attempt. split; [|split].
  - now intros ->.
  - intros room -> Hconn. now rewrite Hconn.
  - intros room -> Hconn. rewrite Hconn. eexists. split; [reflexivity|].
    split; [apply get_set_same|].
    intros k Hk. rewrite get_set_other by assumption.
    rewrite get_spread by assumption. now destruct (JsObject.get data k).
Qed.

Lemma deflect_attempt_names_sender_witness :
  exists payload,
    Gateway.on_deflect_attempt lobbyP1P2 (fun _ => true) "P2"
      [("playerId", "P1"); ("angle", "0.5")]
    = [ Gateway.EmitSocket "P1" (Gateway.deflect_attempt payload) ] /\
    JsObject.get payload "playerId" = Some "P2" /\
    JsObject.get payload "angle" = Some "0.5".
Proof.
  assert (Hdata : NoDup (JsObject.keys
                           [("playerId", "P1"); ("angle", "0.5")])).
  { simpl. constructor; [simpl; intros [H|[]]; discriminate|].
    constructor; [simpl; tauto | constructor]. }
  destruct (deflect_attempt_names_sender lobbyP1P2 (fun _ => true) "P2"
              [("playerId", "P1"); ("angle", "0.5")] Hdata)
    as (_ & _ & Hsent).
  destruct (Hsent (withNewPlayer (soloRoom "P1" 0) "P2" false))
    as (payload & Hemit & Hsender & Hfields); [reflexivity | reflexivity |].
  exists payload. split; [exact Hemit|]. split; [exact Hsender|].
  rewrite Hfields by discriminate. reflexivity.
Defined.

(** X18: a movement is relayed to the others in the sender's room, and
    to nobody when the sender is in no room.  The [id] of the relayed
    payload is the sender's only when [movementData] has no [id] of its
    own: a supplied [id] replaces it.  The other fields are relayed as
    sent. *)
Theorem player_moved_id
    (rooms : Rooms) (socketId : string) (movementData : Gateway.Data)
    (Hdata : NoDup (JsObject.keys movementData)) :
  (RoomManager.getPlayerRoom rooms socketId = None ->
   Gateway.on_player_move rooms socketId movementData = []) /\
  (forall room,
     RoomManager.getPlayerRoom rooms socketId = Some room ->
     exists payload,
       Gateway.on_player_move rooms socketId movementData
       = [Gateway.EmitOthers socketId (Room.id room)
            (Gateway.player_moved payload)] /\
       JsObject.get payload "id"
       = Some (match JsObject.get movementData "id" with
               | Some supplied => supplied
               | None => socketId
               end) /\
       (forall k, k <> "id" ->
                  JsObject.get payload k = JsObject.get movementData k)).
Proof.
  unfold Gateway.on_player_move. split; [now intros ->|].
  intros room ->. eexists. split; [reflexivity|]. split.
  - rewrite get_spread by assumption.
    destruct (JsObject.get movementData "id"); reflexivity.
  - intros k Hk. rewrite get_spread by assumption.
    destruct (JsObject.get movementData k); [reflexivity|].
    change (JsObject.get [("id", socketId)] k)
      with (if "id" =? k then Some socketId else @None string).
    destruct (String.eqb_spec "id" k); congruence.
Qed.

Lemma player_moved_id_witness :
  exists payload,
    Gateway.on_player_move lobbyP1P2 "P2" [("x", "1"); ("id", "P1")]
    = [Gateway.EmitOthers "P2" "ABCD" (Gateway.player_moved payload)] /\
    JsObject.get payload "id" = Some "P1" /\
    (forall k, k <> "id" ->
               JsObject.get payload k
               = JsObject.get [("x", "1"); ("id", "P1")] k).
Proof.
  assert (Hnd : NoDup (JsObject.keys [("x", "1"); ("id", "P1")])).
  { simpl. constructor; [simpl; intros [H|[]]; discriminate|].
    constructor; [simpl; tauto | constructor]. }
  destruct (player_moved_id lobbyP1P2 "P2" [("x", "1"); ("id", "P1")] Hnd)
    as (_ & Hsome).
  exact (Hsome (Room.with_players (soloRoom "P1" 0)
                  [("P1", Player.mk "P1" "BLUE" false true None);
                   ("P2", Player.mk "P2" "RED" false false None)])
           eq_refl).
Defined.

(* ------------------------------------------------------------------ *)
(** ** The room a handler found, in a well-formed registry *)

Lemma well_formed_keyed (rooms : Rooms) :
  well_formed rooms ->
  NoDup (JsObject.keys rooms) /\
  (forall roomId room, In (roomId, room) rooms -> Room.id room = roomId).
Proof.
  intros (Hnd & Hall). split; [exact Hnd|].
  intros roomId room Hin.
  apply (Hall roomId room). now apply get_of_entry.
Qed.

Lemma getPlayerRoom_get (rooms : Rooms) (playerId : string) (room : Room.t) :
  well_formed rooms ->
  RoomManager.getPlayerRoom rooms playerId = Some room ->
  member playerId room /\ JsObject.get rooms (Room.id room) = Some room.
Proof.
  intros Hwf Hfind.
  destruct (getPlayerRoom_some rooms playerId room Hfind)
    as (Hmem & roomId & Hin).
  destruct (well_formed_keyed rooms Hwf) as (Hnd & Hkeyed).
  split; [exact Hmem|]. rewrite (Hkeyed roomId room Hin).
  now apply get_of_entry.
Qed.

(** The first room that holds the player is the one stored under the
    [id] of the room found: mutating the one is replacing the other. *)
Lemma found_in_place (rooms : Rooms) (playerId : string) (room : Room.t) :
  NoDup (JsObject.keys rooms) ->
  (forall roomId r, In (roomId, r) rooms -> Room.id r = roomId) ->
  RoomManager.getPlayerRoom rooms playerId = Some room ->
  (forall f,
     JsObject.modify_found rooms
       (fun r => JsObject.has (Room.players r) playerId) f
     = JsObject.replace rooms (Room.id room) (f room)) /\
  (forall room',
     JsObject.has (Room.players room') playerId = true ->
     RoomManager.getPlayerRoom (JsObject.replace rooms (Room.id room) room')
       playerId = Some room').
Proof.
  unfold RoomManager.getPlayerRoom.
  induction rooms as [|[k v] rest IH]; simpl; intros Hnd Hkeyed Hfind;
    [discriminate|].
  inversion Hnd as [|? ? Hnotin Hnd']; subst.
  destruct (JsObject.has (Room.players v) playerId) eqn:Hhas.
  - injection Hfind as ->.
    rewrite (Hkeyed k room (or_introl eq_refl)), String.eqb_refl.
    split; [reflexivity|]. intros room' Hroom'. simpl. now rewrite Hroom'.
  - assert (Hne : k <> Room.id room).
    { apply find_some in Hfind. destruct Hfind as (Hin & _).
      apply in_map_iff in Hin. destruct Hin as ([k' r] & Heq & Hin).
      simpl in Heq. subst r.
      rewrite (Hkeyed k' room (or_intror Hin)).
      intros ->. apply Hnotin. change k' with (fst (k', room)).
      now apply in_map. }
    destruct (String.eqb_spec k (Room.id room)); [congruence|].
    destruct (IH Hnd' (fun roomId r Hin => Hkeyed roomId r (or_intror Hin))
                Hfind) as (Hmod & Hrefind).
    split.
    + intros f. now rewrite Hmod.
    + intros room' Hroom'. simpl. rewrite Hhas. now apply Hrefind.
Qed.

(** X19: in a well-formed registry the [switch_team] handler answers a
    sender who is in no room with ["No room"], and otherwise either
    ["Team full"], with the registry unchanged, or success, after
    broadcasting to the room the player as now stored and the room's
    roster after the switch.  It never answers ["Failed"]. *)
Theorem switch_team_replies
    (rooms : Rooms) (socketId : string) (teamId : option string)
    (Hwf : well_formed rooms) :
  let rooms' := fst (Gateway.on_switch_team rooms socketId teamId true) in
  let effects := snd (Gateway.on_switch_team rooms socketId teamId true) in
  match RoomManager.getPlayerRoom rooms socketId with
  | None =>
      rooms' = rooms /\
      effects = [Gateway.Callback socketId (Gateway.ReplyError "No room")]
  | Some room =>
      (rooms' = rooms /\
       effects = [Gateway.Callback socketId (Gateway.ReplyError "Team full")])
      \/
      (exists room' player,
         RoomManager.getRoom rooms' (Room.id room) = Some room' /\
         JsObject.get (Room.players room') socketId = Some player /\
         effects
         = [ Gateway.EmitTo (Room.id room) (Gateway.player_team_changed player);
             Gateway.EmitTo (Room.id room)
               (Gateway.current_players (Room.players room'));
             Gateway.Callback socketId Gateway.ReplySuccess ])
  end.
Proof.
  simpl. unfold Gateway.on_switch_team, RoomManager.getRoom.
  destruct (RoomManager.getPlayerRoom rooms socketId) as [room|] eqn:Hfind;
    [|split; reflexivity].
  destruct (getPlayerRoom_get rooms socketId room Hwf Hfind) as (Hmem & Hget).
  destruct (well_formed_keyed rooms Hwf) as (Hnd & Hkeyed).
  unfold RoomManager.switchTeam. rewrite Hget.
  unfold member in Hmem.
  destruct (JsObject.get (Room.players room) socketId) as [p|] eqn:Hp;
    [|congruence].
  set (newTeam := Js.or_string teamId _).
  destruct (Player.team p =? newTeam).
  { right. exists room, p. simpl. rewrite Hfind. auto. }
  destruct (Z.of_nat (Room.teamCount room newTeam)
            >=? Settings.teamSize (Room.settings room))%Z.
  { left. split; reflexivity. }
  right. eexists. exists (Player.with_team p newTeam). simpl.
  split; [apply get_replace_same; congruence|].
  split; [apply get_replace_same; congruence|].
  destruct (found_in_place rooms socketId room Hnd Hkeyed Hfind)
    as (_ & Hrefind).
  rewrite Hrefind; [reflexivity|].
  apply has_get. simpl. rewrite get_replace_same; congruence.
Qed.

Lemma switch_team_replies_witness :
  (fst (Gateway.on_switch_team lobbyP1P2 "P2" (Some "BLUE") true) = lobbyP1P2 /\
   snd (Gateway.on_switch_team lobbyP1P2 "P2" (Some "BLUE") true)
   = [Gateway.Callback "P2" (Gateway.ReplyError "Team full")])
  \/
  (exists room' player,
     RoomManager.getRoom
       (fst (Gateway.on_switch_team lobbyP1P2 "P2" (Some "BLUE") true)) "ABCD"
     = Some room' /\
     JsObject.get (Room.players room') "P2" = Some player /\
     snd (Gateway.on_switch_team lobbyP1P2 "P2" (Some "BLUE") true)
     = [ Gateway.EmitTo "ABCD" (Gateway.player_team_changed player);
         Gateway.EmitTo "ABCD" (Gateway.current_players (Room.players room'));
         Gateway.Callback "P2" Gateway.ReplySuccess ]).
Proof.
  exact (switch_team_replies lobbyP1P2 "P2" (Some "BLUE")
           (run_well_formed
              [OpCreate "P1" Payload.empty "0.abcdef" 0; OpJoin "ABCD" "P2"])).
Defined.

(** X20: [start_game] from a sender who is not the host of their room
    does nothing.  From the host, in a well-formed registry, it sets that
    room's [gameState] to ["PLAYING"] and nothing else, broadcasts the
    room's players to the room, and from then on [joinRoom] on that room
    answers ["Game already started"] for every player. *)
Theorem start_game_closes_room
    (rooms : Rooms) (socketId : string) (room : Room.t)
    (Hwf : well_formed rooms)
    (Hfind : RoomManager.getPlayerRoom rooms socketId = Some room) :
  (Room.hostId room <> socketId ->
   Server.on_start_game rooms socketId = (rooms, [])) /\
  (Room.hostId room = socketId ->
   let rooms' := fst (Server.on_start_game rooms socketId) in
   rooms'
   = JsObject.replace rooms (Room.id room)
       (Room.with_gameState room "PLAYING") /\
   RoomManager.getRoom rooms' (Room.id room)
   = Some (Room.with_gameState room "PLAYING") /\
   snd (Server.on_start_game rooms socketId)
   = [Server.EmitRoom (Room.id room)
        (Server.game_started (Room.players room))] /\
   forall playerId,
     RoomManager.joinRoom rooms' (Room.id room) playerId
     = Some (rooms', RoomManager.JoinError "Game already started")).
Proof.
  destruct (getPlayerRoom_get rooms socketId room Hwf Hfind) as (Hmem & Hget).
  destruct (well_formed_keyed rooms Hwf) as (Hnd & Hkeyed).
  destruct (found_in_place rooms socketId room Hnd Hkeyed Hfind)
    as (Hmod & _).
  unfold Server.on_start_game. rewrite Hfind. split.
  - intros Hnot.
    destruct (String.eqb_spec (Room.hostId room) socketId); congruence.
  - intros Hhost. rewrite Hhost, String.eqb_refl. simpl.
    rewrite Hmod. unfold RoomManager.getRoom, RoomManager.getRoomEntities.
    rewrite get_replace_same by congruence.
    repeat split.
    intros playerId. unfold RoomManager.joinRoom, JsObject.lookup.
    rewrite get_replace_same by congruence. reflexivity.
Qed.

Lemma start_game_closes_room_witness :
  let rooms' := fst (Server.on_start_game lobbyP1P2 "P1") in
  rooms'
  = JsObject.replace lobbyP1P2 "ABCD"
      (Room.with_gameState
         (Room.with_players (soloRoom "P1" 0)
            [("P1", Player.mk "P1" "BLUE" false true None);
             ("P2", Player.mk "P2" "RED" false false None)]) "PLAYING") /\
  RoomManager.getRoom rooms' "ABCD"
  = Some (Room.with_gameState
            (Room.with_players (soloRoom "P1" 0)
               [("P1", Player.mk "P1" "BLUE" false true None);
                ("P2", Player.mk "P2" "RED" false false None)]) "PLAYING") /\
  snd (Server.on_start_game lobbyP1P2 "P1")
  = [Server.EmitRoom "ABCD"
       (Server.game_started
          [("P1", Player.mk "P1" "BLUE" false true None);
           ("P2", Player.mk "P2" "RED" false false None)])] /\
  forall playerId,
    RoomManager.joinRoom rooms' "ABCD" playerId
    = Some (rooms', RoomManager.JoinError "Game already started").
Proof.
  destruct (start_game_closes_room lobbyP1P2 "P1"
              (Room.with_players (soloRoom "P1" 0)
                 [("P1", Player.mk "P1" "BLUE" false true None);
                  ("P2", Player.mk "P2" "RED" false false None)])
              (run_well_formed
                 [OpCreate "P1" Payload.empty "0.abcdef" 0;
                  OpJoin "ABCD" "P2"])
              eq_refl) as (_ & Hhost).
  exact (Hhost eq_refl).
Defined.

(** X21: on disconnect, in a well-formed registry, the sender's entry in
    [players] is deleted and the sender leaves the room found for them:
    the registry is that of [leaveRoom], and the room, if it is still
    there, no longer holds the sender.  The room is told of the
    disconnect; when the sender was not its host nothing more is sent,
    and when the sender was the host and the room remains, the new host
    is told of the role and the room of the new [hostId]. *)
Theorem disconnect_leaves_room
    (st : Gateway.State) (socketId : string) (room : Room.t)
    (Hwf : well_formed (Gateway.rooms st))
    (Hfind : RoomManager.getPlayerRoom (Gateway.rooms st) socketId
             = Some room) :
  let st' := fst (Gateway.on_disconnect st socketId) in
  let effects := snd (Gateway.on_disconnect st socketId) in
  JsObject.get (Gateway.players st') socketId = None /\
  Gateway.rooms st'
  = fst (RoomManager.leaveRoom (Gateway.rooms st) (Room.id room) socketId) /\
  (forall room',
     RoomManager.getRoom (Gateway.rooms st') (Room.id room) = Some room' ->
     ~ member socketId room') /\
  (Room.hostId room <> socketId ->
   effects
   = [Gateway.EmitTo (Room.id room) (Gateway.player_disconnected socketId)]) /\
  (Room.hostId room = socketId ->
   forall room',
     RoomManager.getRoom (Gateway.rooms st') (Room.id room) = Some room' ->
     Room.hostId room' <> "" ->
     effects
     = [ Gateway.EmitTo (Room.id room) (Gateway.player_disconnected socketId);
         Gateway.EmitTo (Room.hostId room') (Gateway.player_role true);
         Gateway.EmitTo (Room.id room)
           (Gateway.host_changed (Room.hostId room')) ]).
Proof.
  destruct (getPlayerRoom_get _ socketId room Hwf Hfind) as (Hmem & Hget).
  simpl. unfold Gateway.on_disconnect, RoomManager.getRoom. rewrite Hfind.
  unfold RoomManager.leaveRoom. rewrite Hget.
  destruct (JsObject.delete (Room.players room) socketId)
    as [|[next nextPlayer] others] eqn:Hdel; simpl.
  - split; [apply get_delete_same|]. split; [reflexivity|].
    rewrite get_delete_same.
    split; [discriminate|]. split; [reflexivity|]. discriminate.
  - assert (Hgone : JsObject.get ((next, nextPlayer) :: others) socketId
                    = None)
      by (rewrite <- Hdel; apply get_delete_same).
    destruct (String.eqb_spec (Room.hostId room) socketId) as [Hhost|Hhost];
      simpl.
    + split; [apply get_delete_same|]. split; [reflexivity|].
      rewrite get_replace_same by congruence.
      split.
      { intros room' [= <-]. unfold member. simpl Room.players.
        simpl in Hgone |- *. destruct (next =? socketId); congruence. }
      split; [congruence|]. intros _ room' [= <-]. simpl.
      intros Hnext. destruct (String.eqb_spec next ""); congruence.
    + split; [apply get_delete_same|]. split; [reflexivity|].
      rewrite get_replace_same by congruence.
      split.
      { intros room' [= <-]. unfold member. simpl Room.players. congruence. }
      split; [reflexivity | congruence].
Qed.

Lemma disconnect_leaves_room_witness :
  let st := Gateway.mkState [("P1", [("id", "P1")])] crowdedLobby in
  let st' := fst (Gateway.on_disconnect st "P1") in
  let effects := snd (Gateway.on_disconnect st "P1") in
  JsObject.get (Gateway.players st') "P1" = None /\
  Gateway.rooms st' = fst (RoomManager.leaveRoom crowdedLobby "ABCD" "P1") /\
  (forall room',
     RoomManager.getRoom (Gateway.rooms st') "ABCD" = Some room' ->
     ~ member "P1" room') /\
  ("P1" <> "P1" ->
   effects = [Gateway.EmitTo "ABCD" (Gateway.player_disconnected "P1")]) /\
  ("P1" = "P1" ->
   forall room',
     RoomManager.getRoom (Gateway.rooms st') "ABCD" = Some room' ->
     Room.hostId room' <> "" ->
     effects
     = [ Gateway.EmitTo "ABCD" (Gateway.player_disconnected "P1");
         Gateway.EmitTo (Room.hostId room') (Gateway.player_role true);
         Gateway.EmitTo "ABCD" (Gateway.host_changed (Room.hostId room')) ]).
Proof.
  exact (disconnect_leaves_room
           (Gateway.mkState [("P1", [("id", "P1")])] crowdedLobby) "P1"
           (Room.mk "ABCD" "P1"
              [("P1", Player.mk "P1" "BLUE" false true None);
               ("P2", Player.mk "P2" "RED" false false None);
               ("P3", Player.mk "P3" "BLUE" false false None)] "LOBBY"
              (Settings.mk 4 2 "orbital") 0)
           (run_well_formed
              [OpCreate "P1" (Payload.mk (Some 2%Z) None) "0.abcdef" 0;
               OpJoin "ABCD" "P2"; OpJoin "ABCD" "P3"])
           eq_refl).
Defined.

(** X22: [update_player_data], in a well-formed registry, changes in the
    sender's room nothing but the [name] of the sender's own entry, which
    becomes [data.name]: team, host flag, the other players and the other
    rooms are as before.  The others in the room are sent the entry as
    renamed, and the sender's record in [players] takes the fields of
    [data] over its own. *)
Theorem update_player_data_renames
    (st : Gateway.State) (socketId : string) (data : Gateway.Data)
    (room : Room.t)
    (Hwf : well_formed (Gateway.rooms st))
    (Hdata : NoDup (JsObject.keys data))
    (Hfind : RoomManager.getPlayerRoom (Gateway.rooms st) socketId
             = Some room) :
  let st' := fst (Gateway.on_update_player_data st socketId data) in
  exists player room',
    JsObject.get (Room.players room) socketId = Some player /\
    RoomManager.getRoom (Gateway.rooms st') (Room.id room) = Some room' /\
    Room.with_players room' (Room.players room) = room /\
    JsObject.keys (Room.players room') = JsObject.keys (Room.players room) /\
    JsObject.get (Room.players room') socketId
    = Some (Gateway.with_name player (JsObject.get data "name")) /\
    (forall q, q <> socketId ->
               JsObject.get (Room.players room') q
               = JsObject.get (Room.players room) q) /\
    (forall r, r <> Room.id room ->
               RoomManager.getRoom (Gateway.rooms st') r
               = RoomManager.getRoom (Gateway.rooms st) r) /\
    snd (Gateway.on_update_player_data st socketId data)
    = [Gateway.EmitOthers socketId (Room.id room)
         (Gateway.player_updated
            (Gateway.with_name player (JsObject.get data "name")))] /\
    (forall mine,
       JsObject.get (Gateway.players st) socketId = Some mine ->
       exists mine',
         JsObject.get (Gateway.players st') socketId = Some mine' /\
         forall k,
           JsObject.get mine' k
           = match JsObject.get data k with
             | Some v => Some v
             | None => JsObject.get mine k
             end).
Proof.
  destruct (getPlayerRoom_get _ socketId room Hwf Hfind) as (Hmem & Hget).
  destruct (well_formed_keyed _ Hwf) as (Hnd & Hkeyed).
  destruct (found_in_place _ socketId room Hnd Hkeyed Hfind) as (Hmod & _).
  simpl. unfold Gateway.on_update_player_data, RoomManager.getRoom.
  rewrite Hfind. unfold member in Hmem.
  destruct (JsObject.get (Room.players room) socketId) as [player|] eqn:Hp;
    [|congruence].
  simpl. rewrite Hmod. exists player. eexists.
  split; [reflexivity|].
  split; [apply get_replace_same; congruence|]. simpl.
  split; [now destruct room|]. split; [apply keys_modify|].
  split; [exact (get_modify_same _ _ _ _ Hp)|].
  split; [intros q Hq; now apply get_modify_other|].
  split; [intros r Hr; now apply get_replace_other|].
  split; [reflexivity|].
  intros mine Hmine. rewrite Hmine. eexists.
  split; [apply get_replace_same; congruence|].
  intros k. now apply get_spread.
Qed.

Lemma update_player_data_renames_witness :
  let st := Gateway.mkState [("P2", [("id", "P2")])] lobbyP1P2 in
  let st' :=
    fst (Gateway.on_update_player_data st "P2" [("name", "Ada")]) in
  exists player room',
    JsObject.get
      [("P1", Player.mk "P1" "BLUE" false true None);
       ("P2", Player.mk "P2" "RED" false false None)] "P2" = Some player /\
    RoomManager.getRoom (Gateway.rooms st') "ABCD" = Some room' /\
    Room.with_players room'
      [("P1", Player.mk "P1" "BLUE" false true None);
       ("P2", Player.mk "P2" "RED" false false None)]
    = Room.with_players (soloRoom "P1" 0)
        [("P1", Player.mk "P1" "BLUE" false true None);
         ("P2", Player.mk "P2" "RED" false false None)] /\
    JsObject.keys (Room.players room') = ["P1"; "P2"] /\
    JsObject.get (Room.players room') "P2"
    = Some (Gateway.with_name player (Some "Ada")) /\
    (forall q, q <> "P2" ->
               JsObject.get (Room.players room') q
               = JsObject.get
                   [("P1", Player.mk "P1" "BLUE" false true None);
                    ("P2", Player.mk "P2" "RED" false false None)] q) /\
    (forall r, r <> "ABCD" ->
               RoomManager.getRoom (Gateway.rooms st') r
               = RoomManager.getRoom lobbyP1P2 r) /\
    snd (Gateway.on_update_player_data st "P2" [("name", "Ada")])
    = [Gateway.EmitOthers "P2" "ABCD"
         (Gateway.player_updated (Gateway.with_name player (Some "Ada")))] /\
    (forall mine,
       JsObject.get [("P2", [("id", "P2")])] "P2" = Some mine ->
       exists mine',
         JsObject.get (Gateway.players st') "P2" = Some mine' /\
         forall k,
           JsObject.get mine' k
           = match JsObject.get [("name", "Ada")] k with
             | Some v => Some v
             | None => JsObject.get mine k
             end).
Proof.
  exact (update_player_data_renames
           (Gateway.mkState [("P2", [("id", "P2")])] lobbyP1P2) "P2"
           [("name", "Ada")]
           (Room.with_players (soloRoom "P1" 0)
              [("P1", Player.mk "P1" "BLUE" false true None);
               ("P2", Player.mk "P2" "RED" false false None)])
           (run_well_formed
              [OpCreate "P1" Payload.empty "0.abcdef" 0; OpJoin "ABCD" "P2"])
           (NoDup_cons "name" (fun H : In "name" [] => H) (NoDup_nil string))
           eq_refl).
Defined.
